(** * cm-chessboard: move input state machine and animation queue

    A shallow embedding of [ChessboardMoveInput] (the gesture state machine)
    and of the piece, marker and animation-queue parts of [ChessboardView],
    followed by the properties of the specification that concern them.

    Conventions of the embedding.
    - A JavaScript field that can hold [undefined], [null] or a value is a
      [js A].  A square index is the value of a [data-index] attribute, a
      non-empty decimal string written by [drawBoard] and [drawPiece]; the
      string of the number [i] is [val i].  Such a string is truthy for
      every [i], the string of square 0 included, and [===] on two of them
      is equality of the numbers.
    - Methods that mutate [this] are state transformers on a [World] that
      holds the move input, the board state, the view, the window listeners
      and the trace of calls made to collaborators.  [throw] keeps the world
      reached when the exception was raised.
    - Numbers of pixels are integers; a duration is an exact rational. *)

From Stdlib Require Import ZArith QArith String Bool Lia.
From stdpp Require Import base list.

(** ** JavaScript values *)

Inductive js (A : Type) : Type :=
| undefined
| null
| val (a : A).
Arguments undefined {A}.
Arguments null {A}.
Arguments val {A} a.

(** [a === b] *)
Definition strictEq {A : Type} (eqA : A -> A -> bool) (a b : js A) : bool :=
  match a, b with
  | undefined, undefined => true
  | null, null => true
  | val x, val y => eqA x y
  | _, _ => false
  end.

(** [index === other] on square indices. *)
Definition sameIndex : js nat -> js nat -> bool := strictEq Nat.eqb.

(** Truthiness of a square index: a [data-index] string is never empty. *)
Definition truthyIndex (i : js nat) : bool :=
  match i with val _ => true | _ => false end.

(** Truthiness of a piece name: the empty string is falsy. *)
Definition truthyName (p : js string) : bool :=
  match p with val s => negb (String.eqb s EmptyString) | _ => false end.

Inductive Exception : Type :=
| Error (message : string)
| TypeError.

(** ** Constants of the sources *)

Module STATE.
Inductive t : Type :=
| waitForInputStart
| pieceClickedThreshold
| clickTo
| secondClickThreshold
| dragTo
| clickDragTo
| moveDone
| reset.

(** The numbers the source gives to the states. *)
Definition code (s : t) : nat :=
  match s with
  | waitForInputStart => 0
  | pieceClickedThreshold => 1
  | clickTo => 2
  | secondClickThreshold => 3
  | dragTo => 4
  | clickDragTo => 5
  | moveDone => 6
  | reset => 7
  end.

(** [a === b] on states. *)
Definition eqb (a b : t) : bool :=
  match a, b with
  | waitForInputStart, waitForInputStart => true
  | pieceClickedThreshold, pieceClickedThreshold => true
  | clickTo, clickTo => true
  | secondClickThreshold, secondClickThreshold => true
  | dragTo, dragTo => true
  | clickDragTo, clickDragTo => true
  | moveDone, moveDone => true
  | reset, reset => true
  | _, _ => false
  end.
End STATE.

Inductive MOVE_CANCELED_REASON : Type :=
| secondClick
| movedOutOfBoard.

Definition DRAG_THRESHOLD : Z := 2.

(** Modelled from the spec: [MOVE_INPUT_MODE] of Chessboard.js, which is not
    among the sources; the spec lists the modes [dragPiece], [click] and
    [viewOnly]. *)
Inductive MOVE_INPUT_MODE : Type :=
| viewOnly
| dragPiece
| click.

Definition isDragPiece (m : MOVE_INPUT_MODE) : bool :=
  match m with dragPiece => true | _ => false end.

(** Modelled from the spec: [MARKER_TYPE] of Chessboard.js; the spec only
    distinguishes the move highlight from the other kinds of marker. *)
Inductive MARKER_TYPE : Type :=
| move
| emphasize.

Definition sameMarkerType (a b : MARKER_TYPE) : bool :=
  match a, b with
  | move, move => true
  | emphasize, emphasize => true
  | _, _ => false
  end.

Inductive EventType : Type :=
| mousedown
| touchstart
| mousemove
| touchmove
| mouseup
| touchend.

(** ** The data of the board *)

Record Point : Type := { x : Z; y : Z }.

Module Marker.
Record t : Type := { index : js nat; type : MARKER_TYPE }.
End Marker.

(** A [g] element of the pieces group, as [drawPiece] builds it. *)
Module PieceElement.
Record t : Type := { dataIndex : nat; dataPiece : string; visible : bool }.
End PieceElement.

(** The floating copy of the dragged piece; [position] is the pointer
    position given to [moveDraggablePiece], if any. *)
Module DraggablePiece.
Record t : Type := { name : js string; position : option Point }.
End DraggablePiece.

(** What the machine passes to the callbacks of an animation. *)
Inductive Callback : Type :=
| noCallback
| resetMoveInput            (* () => this.setMoveInputState(STATE.reset) *)
| applicationCallback (id : nat).

Module Animation.
(** An entry of [animationQueue]. *)
Record t : Type :=
  { fromSquares : list (js string);
    toSquares : list (js string);
    callback : Callback }.
End Animation.

Module PiecesAnimation.
(** An instance of [ChessboardPiecesAnimation]: its arguments. *)
Record t : Type :=
  { fromSquares : list (js string);
    toSquares : list (js string);
    duration : Q;
    entry : Animation.t }.
End PiecesAnimation.

(** An element that a pointer event can hit: whether its parent is the board
    group, and its [data-index] attribute. *)
Module Element.
Record t : Type := { inBoardGroup : bool; dataIndex : option nat }.

(** [element.getAttribute("data-index")] *)
Definition getDataIndex (e : t) : js nat :=
  match dataIndex e with
  | Some i => val i
  | None => null
  end.
End Element.

(** The event object given to the application's [moveInputCallback]; the
    table [SQUARE_COORDINATES] is not among the sources, a square is named
    by its index. *)
Inductive InputEvent : Type :=
| moveStartEvent (square : js nat)
| moveDoneEvent (squareFrom squareTo : js nat)
| moveCanceledEvent (reason : MOVE_CANCELED_REASON) (square : js nat).

(** Calls that leave the modelled classes, in the order they are made. *)
Inductive Call : Type :=
| calledMoveStart (index : js nat) (accepted : bool)
| calledMoveDone (fromIndex toIndex : js nat) (accepted : bool)
| calledMoveCanceled (reason : MOVE_CANCELED_REASON) (index : js nat)
| startedAnimation (a : PiecesAnimation.t)
| calledApplication (id : nat).

(** ** The objects *)

Module MoveInput.
Record t : Type :=
  { moveInputState : STATE.t;
    startIndex : js nat;
    endIndex : js nat;
    movedPiece : js string;
    startPoint : option Point;
    draggablePiece : option DraggablePiece.t;
    pointerMoveListener : option EventType;
    pointerUpListener : option EventType }.
End MoveInput.

Module State.
Record t : Type :=
  { squares : list (js string);
    markers : list Marker.t;
    inputWhiteEnabled : bool;
    inputBlackEnabled : bool }.
End State.

Module View.
Record t : Type :=
  { piecesGroup : list PieceElement.t;
    markersGroup : list Marker.t;
    animationRunning : bool;
    currentAnimation : option PiecesAnimation.t;
    animationQueue : list Animation.t;
    drawPiecesDebounce : bool;
    drawMarkersDebounce : bool;
    playing : list PiecesAnimation.t }.
End View.

Module Props.
Record t : Type :=
  { moveInputMode : MOVE_INPUT_MODE;
    animationDuration : Q }.
End Props.

(** Listeners of the move input on [window]. *)
Inductive Listener : Type :=
| pointerMove
| pointerUp.

Record World : Type :=
  { moveInput : MoveInput.t;
    state : State.t;
    view : View.t;
    props : Props.t;
    windowListeners : list (EventType * Listener);
    calls : list Call }.

(** ** Field updates *)

Definition withMoveInput (f : MoveInput.t -> MoveInput.t) (w : World) : World :=
  {| moveInput := f (moveInput w); state := state w; view := view w;
     props := props w; windowListeners := windowListeners w; calls := calls w |}.

Definition withState (f : State.t -> State.t) (w : World) : World :=
  {| moveInput := moveInput w; state := f (state w); view := view w;
     props := props w; windowListeners := windowListeners w; calls := calls w |}.

Definition withView (f : View.t -> View.t) (w : World) : World :=
  {| moveInput := moveInput w; state := state w; view := f (view w);
     props := props w; windowListeners := windowListeners w; calls := calls w |}.

Definition withWindowListeners
  (f : list (EventType * Listener) -> list (EventType * Listener)) (w : World) : World :=
  {| moveInput := moveInput w; state := state w; view := view w;
     props := props w; windowListeners := f (windowListeners w); calls := calls w |}.

Definition withCalls (f : list Call -> list Call) (w : World) : World :=
  {| moveInput := moveInput w; state := state w; view := view w;
     props := props w; windowListeners := windowListeners w; calls := f (calls w) |}.

Module SetInput.
Definition moveInputState (v : STATE.t) (r : MoveInput.t) : MoveInput.t :=
  {| MoveInput.moveInputState := v;
     MoveInput.startIndex := MoveInput.startIndex r;
     MoveInput.endIndex := MoveInput.endIndex r;
     MoveInput.movedPiece := MoveInput.movedPiece r;
     MoveInput.startPoint := MoveInput.startPoint r;
     MoveInput.draggablePiece := MoveInput.draggablePiece r;
     MoveInput.pointerMoveListener := MoveInput.pointerMoveListener r;
     MoveInput.pointerUpListener := MoveInput.pointerUpListener r |}.
Definition startIndex (v : js nat) (r : MoveInput.t) : MoveInput.t :=
  {| MoveInput.moveInputState := MoveInput.moveInputState r;
     MoveInput.startIndex := v;
     MoveInput.endIndex := MoveInput.endIndex r;
     MoveInput.movedPiece := MoveInput.movedPiece r;
     MoveInput.startPoint := MoveInput.startPoint r;
     MoveInput.draggablePiece := MoveInput.draggablePiece r;
     MoveInput.pointerMoveListener := MoveInput.pointerMoveListener r;
     MoveInput.pointerUpListener := MoveInput.pointerUpListener r |}.
Definition endIndex (v : js nat) (r : MoveInput.t) : MoveInput.t :=
  {| MoveInput.moveInputState := MoveInput.moveInputState r;
     MoveInput.startIndex := MoveInput.startIndex r;
     MoveInput.endIndex := v;
     MoveInput.movedPiece := MoveInput.movedPiece r;
     MoveInput.startPoint := MoveInput.startPoint r;
     MoveInput.draggablePiece := MoveInput.draggablePiece r;
     MoveInput.pointerMoveListener := MoveInput.pointerMoveListener r;
     MoveInput.pointerUpListener := MoveInput.pointerUpListener r |}.
Definition movedPiece (v : js string) (r : MoveInput.t) : MoveInput.t :=
  {| MoveInput.moveInputState := MoveInput.moveInputState r;
     MoveInput.startIndex := MoveInput.startIndex r;
     MoveInput.endIndex := MoveInput.endIndex r;
     MoveInput.movedPiece := v;
     MoveInput.startPoint := MoveInput.startPoint r;
     MoveInput.draggablePiece := MoveInput.draggablePiece r;
     MoveInput.pointerMoveListener := MoveInput.pointerMoveListener r;
     MoveInput.pointerUpListener := MoveInput.pointerUpListener r |}.
Definition startPoint (v : option Point) (r : MoveInput.t) : MoveInput.t :=
  {| MoveInput.moveInputState := MoveInput.moveInputState r;
     MoveInput.startIndex := MoveInput.startIndex r;
     MoveInput.endIndex := MoveInput.endIndex r;
     MoveInput.movedPiece := MoveInput.movedPiece r;
     MoveInput.startPoint := v;
     MoveInput.draggablePiece := MoveInput.draggablePiece r;
     MoveInput.pointerMoveListener := MoveInput.pointerMoveListener r;
     MoveInput.pointerUpListener := MoveInput.pointerUpListener r |}.
Definition draggablePiece (v : option DraggablePiece.t) (r : MoveInput.t) : MoveInput.t :=
  {| MoveInput.moveInputState := MoveInput.moveInputState r;
     MoveInput.startIndex := MoveInput.startIndex r;
     MoveInput.endIndex := MoveInput.endIndex r;
     MoveInput.movedPiece := MoveInput.movedPiece r;
     MoveInput.startPoint := MoveInput.startPoint r;
     MoveInput.draggablePiece := v;
     MoveInput.pointerMoveListener := MoveInput.pointerMoveListener r;
     MoveInput.pointerUpListener := MoveInput.pointerUpListener r |}.
Definition pointerMoveListener (v : option EventType) (r : MoveInput.t) : MoveInput.t :=
  {| MoveInput.moveInputState := MoveInput.moveInputState r;
     MoveInput.startIndex := MoveInput.startIndex r;
     MoveInput.endIndex := MoveInput.endIndex r;
     MoveInput.movedPiece := MoveInput.movedPiece r;
     MoveInput.startPoint := MoveInput.startPoint r;
     MoveInput.draggablePiece := MoveInput.draggablePiece r;
     MoveInput.pointerMoveListener := v;
     MoveInput.pointerUpListener := MoveInput.pointerUpListener r |}.
Definition pointerUpListener (v : option EventType) (r : MoveInput.t) : MoveInput.t :=
  {| MoveInput.moveInputState := MoveInput.moveInputState r;
     MoveInput.startIndex := MoveInput.startIndex r;
     MoveInput.endIndex := MoveInput.endIndex r;
     MoveInput.movedPiece := MoveInput.movedPiece r;
     MoveInput.startPoint := MoveInput.startPoint r;
     MoveInput.draggablePiece := MoveInput.draggablePiece r;
     MoveInput.pointerMoveListener := MoveInput.pointerMoveListener r;
     MoveInput.pointerUpListener := v |}.
End SetInput.

Module SetState.
Definition squares (v : list (js string)) (r : State.t) : State.t :=
  {| State.squares := v;
     State.markers := State.markers r;
     State.inputWhiteEnabled := State.inputWhiteEnabled r;
     State.inputBlackEnabled := State.inputBlackEnabled r |}.
Definition markers (v : list Marker.t) (r : State.t) : State.t :=
  {| State.squares := State.squares r;
     State.markers := v;
     State.inputWhiteEnabled := State.inputWhiteEnabled r;
     State.inputBlackEnabled := State.inputBlackEnabled r |}.
Definition inputWhiteEnabled (v : bool) (r : State.t) : State.t :=
  {| State.squares := State.squares r;
     State.markers := State.markers r;
     State.inputWhiteEnabled := v;
     State.inputBlackEnabled := State.inputBlackEnabled r |}.
Definition inputBlackEnabled (v : bool) (r : State.t) : State.t :=
  {| State.squares := State.squares r;
     State.markers := State.markers r;
     State.inputWhiteEnabled := State.inputWhiteEnabled r;
     State.inputBlackEnabled := v |}.
End SetState.

Module SetView.
Definition piecesGroup (v : list PieceElement.t) (r : View.t) : View.t :=
  {| View.piecesGroup := v;
     View.markersGroup := View.markersGroup r;
     View.animationRunning := View.animationRunning r;
     View.currentAnimation := View.currentAnimation r;
     View.animationQueue := View.animationQueue r;
     View.drawPiecesDebounce := View.drawPiecesDebounce r;
     View.drawMarkersDebounce := View.drawMarkersDebounce r;
     View.playing := View.playing r |}.
Definition markersGroup (v : list Marker.t) (r : View.t) : View.t :=
  {| View.piecesGroup := View.piecesGroup r;
     View.markersGroup := v;
     View.animationRunning := View.animationRunning r;
     View.currentAnimation := View.currentAnimation r;
     View.animationQueue := View.animationQueue r;
     View.drawPiecesDebounce := View.drawPiecesDebounce r;
     View.drawMarkersDebounce := View.drawMarkersDebounce r;
     View.playing := View.playing r |}.
Definition animationRunning (v : bool) (r : View.t) : View.t :=
  {| View.piecesGroup := View.piecesGroup r;
     View.markersGroup := View.markersGroup r;
     View.animationRunning := v;
     View.currentAnimation := View.currentAnimation r;
     View.animationQueue := View.animationQueue r;
     View.drawPiecesDebounce := View.drawPiecesDebounce r;
     View.drawMarkersDebounce := View.drawMarkersDebounce r;
     View.playing := View.playing r |}.
Definition currentAnimation (v : option PiecesAnimation.t) (r : View.t) : View.t :=
  {| View.piecesGroup := View.piecesGroup r;
     View.markersGroup := View.markersGroup r;
     View.animationRunning := View.animationRunning r;
     View.currentAnimation := v;
     View.animationQueue := View.animationQueue r;
     View.drawPiecesDebounce := View.drawPiecesDebounce r;
     View.drawMarkersDebounce := View.drawMarkersDebounce r;
     View.playing := View.playing r |}.
Definition animationQueue (v : list Animation.t) (r : View.t) : View.t :=
  {| View.piecesGroup := View.piecesGroup r;
     View.markersGroup := View.markersGroup r;
     View.animationRunning := View.animationRunning r;
     View.currentAnimation := View.currentAnimation r;
     View.animationQueue := v;
     View.drawPiecesDebounce := View.drawPiecesDebounce r;
     View.drawMarkersDebounce := View.drawMarkersDebounce r;
     View.playing := View.playing r |}.
Definition drawPiecesDebounce (v : bool) (r : View.t) : View.t :=
  {| View.piecesGroup := View.piecesGroup r;
     View.markersGroup := View.markersGroup r;
     View.animationRunning := View.animationRunning r;
     View.currentAnimation := View.currentAnimation r;
     View.animationQueue := View.animationQueue r;
     View.drawPiecesDebounce := v;
     View.drawMarkersDebounce := View.drawMarkersDebounce r;
     View.playing := View.playing r |}.
Definition drawMarkersDebounce (v : bool) (r : View.t) : View.t :=
  {| View.piecesGroup := View.piecesGroup r;
     View.markersGroup := View.markersGroup r;
     View.animationRunning := View.animationRunning r;
     View.currentAnimation := View.currentAnimation r;
     View.animationQueue := View.animationQueue r;
     View.drawPiecesDebounce := View.drawPiecesDebounce r;
     View.drawMarkersDebounce := v;
     View.playing := View.playing r |}.
Definition playing (v : list PiecesAnimation.t) (r : View.t) : View.t :=
  {| View.piecesGroup := View.piecesGroup r;
     View.markersGroup := View.markersGroup r;
     View.animationRunning := View.animationRunning r;
     View.currentAnimation := View.currentAnimation r;
     View.animationQueue := View.animationQueue r;
     View.drawPiecesDebounce := View.drawPiecesDebounce r;
     View.drawMarkersDebounce := View.drawMarkersDebounce r;
     View.playing := v |}.
End SetView.

(** ** Methods as state transformers that may throw *)

Inductive Result (A : Type) : Type :=
| Ok (a : A) (w : World)
| Throw (e : Exception) (w : World).
Arguments Ok {A} a w.
Arguments Throw {A} e w.

Definition M (A : Type) : Type := World -> Result A.

Definition ret {A : Type} (a : A) : M A := fun w => Ok a w.

Definition bind {A B : Type} (m : M A) (k : A -> M B) : M B :=
  fun w =>
    match m w with
    | Ok a w' => k a w'
    | Throw e w' => Throw e w'
    end.

Definition throw {A : Type} (e : Exception) : M A := fun w => Throw e w.

Definition gets {A : Type} (f : World -> A) : M A := fun w => Ok (f w) w.

Definition modify (f : World -> World) : M unit := fun w => Ok tt (f w).

#[global] Instance M_ret : MRet M := @ret.
#[global] Instance M_bind : MBind M := fun A B k m => bind m k.

(** The world a computation ends in, whether it returned or threw. *)
Definition worldOf {A : Type} (r : Result A) : World :=
  match r with
  | Ok _ w => w
  | Throw _ w => w
  end.

Definition returned {A : Type} (r : Result A) : bool :=
  match r with
  | Ok _ _ => true
  | Throw _ _ => false
  end.

Definition this {A : Type} (f : MoveInput.t -> A) : M A := gets (fun w => f (moveInput w)).
Definition assign (f : MoveInput.t -> MoveInput.t) : M unit := modify (withMoveInput f).
Definition record (c : Call) : M unit := modify (withCalls (fun l => l ++ [c])).

(** ** ChessboardState *)

(** Modelled from the spec: [setPiece(index, pieceOrEmpty)] of
    ChessboardState.js, which is not among the sources.  The placement is a
    container of 64 entries, one per square; the entry of the square is
    overwritten.  An index that names no entry leaves the entries as they
    are. *)
Definition setPiece (index : js nat) (piece : js string) : M unit :=
  modify (withState (fun s =>
    match index with
    | val i => SetState.squares (<[i := piece]> (State.squares s)) s
    | _ => s
    end)).

(** Modelled from the spec: [addMarker(index, type)] of ChessboardState.js. *)
Definition addMarker (index : js nat) (type : MARKER_TYPE) : M unit :=
  modify (withState (fun s =>
    SetState.markers (State.markers s ++ [{| Marker.index := index; Marker.type := type |}]) s)).

(** Modelled from the spec: [removeMarkers(filterIndexOrNull, type)] of
    ChessboardState.js, called by the sources with [null] for the index
    only: every marker of the given type is removed. *)
Definition removeMarkers (type : MARKER_TYPE) : M unit :=
  modify (withState (fun s =>
    SetState.markers
      (List.filter (fun m => negb (sameMarkerType (Marker.type m) type)) (State.markers s)) s)).

(** ** ChessboardView: pieces and markers *)

(** [drawPiece(index, pieceName)], the attributes of the new group. *)
Definition drawPiece (index : nat) (pieceName : string) : PieceElement.t :=
  {| PieceElement.dataIndex := index;
     PieceElement.dataPiece := pieceName;
     PieceElement.visible := true |}.

(** The groups [drawPieces(squares)] puts into the emptied pieces group:
    one for each [i < 64] with a truthy [squares[i]]. *)
Definition renderPieces (squares : list (js string)) : list PieceElement.t :=
  flat_map
    (fun i =>
       match squares !! i with
       | Some (val pieceName) =>
           if truthyName (val pieceName) then [drawPiece i pieceName] else []
       | _ => []
       end)
    (seq 0 64).

Definition drawPieces (squares : list (js string)) : M unit :=
  modify (withView (SetView.piecesGroup (renderPieces squares))).

(** [drawPiecesDebounced()]: the timer is replaced by one that will draw
    [state.squares] as they are when it fires. *)
Definition drawPiecesDebounced : M unit :=
  modify (withView (SetView.drawPiecesDebounce true)).

(** [getPiece(index)]: the first group whose [data-index] is the string of
    [index]; no group carries the string of [null] or [undefined]. *)
Definition findPiece (index : js nat) (g : list PieceElement.t) : option PieceElement.t :=
  match index with
  | val i => find (fun p => Nat.eqb (PieceElement.dataIndex p) i) g
  | _ => None
  end.

Definition getPiece (index : js nat) : M (option PieceElement.t) :=
  gets (fun w => findPiece index (View.piecesGroup (view w))).

Fixpoint setVisibility (i : nat) (visible : bool) (g : list PieceElement.t)
  : list PieceElement.t :=
  match g with
  | [] => []
  | p :: rest =>
      if Nat.eqb (PieceElement.dataIndex p) i
      then {| PieceElement.dataIndex := PieceElement.dataIndex p;
              PieceElement.dataPiece := PieceElement.dataPiece p;
              PieceElement.visible := visible |} :: rest
      else p :: setVisibility i visible rest
  end.

(** [setPieceVisibility(index, visible = true)]; [piece.setAttribute] on a
    missing piece is a TypeError. *)
Definition setPieceVisibility (index : js nat) (visible : bool) : M unit :=
  piece ← getPiece index;
  match piece, index with
  | Some _, val i =>
      modify (withView (fun v =>
        SetView.piecesGroup (setVisibility i visible (View.piecesGroup v)) v))
  | _, _ => throw TypeError
  end.

Definition drawMarkersDebounced : M unit :=
  modify (withView (SetView.drawMarkersDebounce true)).

Definition drawMarkers : M unit :=
  modify (fun w => withView (SetView.markersGroup (State.markers (state w))) w).

(** ** ChessboardView: the animation queue *)

(** Modelled from the spec: the constructor of [ChessboardPiecesAnimation]
    (ChessboardPiecesAnimation.js is not among the sources).  At most one
    animation plays at a time and [animatePieces] tests [animationRunning],
    which nothing in ChessboardView.js sets: the animation marks the view
    as running while it plays.  [playing] collects the animations that
    were started and have not completed. *)
Definition newChessboardPiecesAnimation
  (fromSquares toSquares : list (js string)) (duration : Q) (entry : Animation.t)
  : M PiecesAnimation.t :=
  let a := {| PiecesAnimation.fromSquares := fromSquares;
              PiecesAnimation.toSquares := toSquares;
              PiecesAnimation.duration := duration;
              PiecesAnimation.entry := entry |} in
  modify (withView (fun v =>
    SetView.animationRunning true (SetView.playing (View.playing v ++ [a]) v)));;
  record (startedAnimation a);;
  mret a.

(** [animationDuration / (animationQueue.length + 1)] *)
Definition durationFor (base : Q) (queueLength : nat) : Q :=
  (base / inject_Z (Z.of_nat (queueLength + 1)))%Q.

(** The part of [nextPieceAnimationInQueue] before the completion callback
    runs: the head of the queue is shifted out and an animation is built
    for it. *)
Definition nextPieceAnimationInQueue : M unit :=
  queue ← gets (fun w => View.animationQueue (view w));
  match queue with
  | [] => mret tt
  | nextAnimation :: rest =>
      modify (withView (SetView.animationQueue rest));;
      base ← gets (fun w => Props.animationDuration (props w));
      a ← newChessboardPiecesAnimation
             (Animation.fromSquares nextAnimation)
             (Animation.toSquares nextAnimation)
             (durationFor base (length rest))
             nextAnimation;
      modify (withView (SetView.currentAnimation (Some a)))
  end.

Definition animatePieces (fromSquares toSquares : list (js string)) (callback : Callback)
  : M unit :=
  modify (withView (fun v =>
    SetView.animationQueue
      (View.animationQueue v ++
         [{| Animation.fromSquares := fromSquares;
             Animation.toSquares := toSquares;
             Animation.callback := callback |}]) v));;
  running ← gets (fun w => View.animationRunning (view w));
  if negb running then nextPieceAnimationInQueue else mret tt.

(** Arguments of [setMoveInputState]; a property that the caller leaves out
    is [undefined] ([None] for the point and the event type). *)
Module Params.
Record t : Type :=
  { index : js nat;
    piece : js string;
    point : option Point;
    type : option EventType }.
End Params.

(** Pointer events, with what the handlers read from them.  The target of a
    touch move or touch end is [document.elementFromPoint] at the touch;
    [None] is a missing target, or a node without [getAttribute]. *)
Inductive PointerDown : Type :=
| MouseDown (button : Z) (target : Element.t) (clientX clientY : Z)
| TouchStart (target : Element.t) (clientX clientY : Z).

Inductive PointerMove : Type :=
| MouseMove (pageX pageY : Z) (target : option Element.t)
| TouchMove (pageX pageY : Z) (elementFromPoint : option Element.t).

Inductive PointerUp : Type :=
| MouseUp (target : option Element.t)
| TouchEnd (elementFromPoint : option Element.t).

Section Chessboard.

(** [chessboard.moveInputCallback], if the application has set one; the
    machine uses the truthiness of what it returns. *)
Variable moveInputCallback : option (InputEvent -> bool).

(** ** ChessboardView: the callbacks given to the move input *)

(** What a callback of the view returns for an event: the answer of the
    application, [true] when the application has no callback. *)
Definition answer (e : InputEvent) : bool :=
  match moveInputCallback with
  | Some f => f e
  | None => true
  end.

Definition moveStartCallback (index : js nat) : M bool :=
  let accepted := answer (moveStartEvent index) in
  record (calledMoveStart index accepted);;
  mret accepted.

Definition moveDoneCallback (fromIndex toIndex : js nat) : M bool :=
  let accepted := answer (moveDoneEvent fromIndex toIndex) in
  record (calledMoveDone fromIndex toIndex accepted);;
  mret accepted.

Definition moveCanceledCallback (reason : MOVE_CANCELED_REASON) (index : js nat) : M unit :=
  record (calledMoveCanceled reason index).

(** ** ChessboardMoveInput *)

Definition updateStartEndMarkers : M unit :=
  removeMarkers move;;
  startIndex ← this MoveInput.startIndex;
  (if truthyIndex startIndex then addMarker startIndex move else mret tt);;
  endIndex ← this MoveInput.endIndex;
  (if truthyIndex endIndex then addMarker endIndex move else mret tt);;
  drawMarkersDebounced.

Definition createDraggablePiece (pieceName : js string) : M unit :=
  draggablePiece ← this MoveInput.draggablePiece;
  match draggablePiece with
  | Some _ => throw (Error "draggablePiece exists")
  | None =>
      assign (SetInput.draggablePiece
                (Some {| DraggablePiece.name := pieceName;
                         DraggablePiece.position := None |}))
  end.

Definition moveDraggablePiece (x y : Z) : M unit :=
  draggablePiece ← this MoveInput.draggablePiece;
  match draggablePiece with
  | Some d =>
      assign (SetInput.draggablePiece
                (Some {| DraggablePiece.name := DraggablePiece.name d;
                         DraggablePiece.position := Some {| x := x; y := y |} |}))
  | None => throw TypeError
  end.

(** [Svg.removeElement(this.draggablePiece); this.draggablePiece = null],
    when there is one. *)
Definition removeDraggablePiece : M unit :=
  draggablePiece ← this MoveInput.draggablePiece;
  match draggablePiece with
  | Some _ => assign (SetInput.draggablePiece None)
  | None => mret tt
  end.

Definition addEventListener (type : EventType) (l : Listener) : M unit :=
  modify (withWindowListeners (fun ls => ls ++ [(type, l)])).

Definition sameEventType (a b : EventType) : bool :=
  match a, b with
  | mousedown, mousedown | touchstart, touchstart | mousemove, mousemove
  | touchmove, touchmove | mouseup, mouseup | touchend, touchend => true
  | _, _ => false
  end.

Definition sameListener (a b : Listener) : bool :=
  match a, b with
  | pointerMove, pointerMove | pointerUp, pointerUp => true
  | _, _ => false
  end.

Definition removeEventListener (type : EventType) (l : Listener) : M unit :=
  modify (withWindowListeners
    (List.filter (fun r => negb (sameEventType (fst r) type && sameListener (snd r) l)))).

(** Reading a property of [params]; [params] is [null] when the caller
    gives none. *)
Definition param {A : Type} (params : option Params.t) (f : Params.t -> A) : M A :=
  match params with
  | Some p => mret (f p)
  | None => throw TypeError
  end.

(** The body of [case STATE.reset], up to and with its call
    [this.setMoveInputState(STATE.waitForInputStart)]. *)
Definition caseReset : M unit :=
  startIndex ← this MoveInput.startIndex;
  endIndex ← this MoveInput.endIndex;
  movedPiece ← this MoveInput.movedPiece;
  (if truthyIndex startIndex && negb (truthyIndex endIndex) && truthyName movedPiece
   then setPiece startIndex movedPiece else mret tt);;
  assign (SetInput.startIndex null);;
  assign (SetInput.endIndex null);;
  assign (SetInput.movedPiece null);;
  updateStartEndMarkers;;
  removeDraggablePiece;;
  pointerMoveListener ← this MoveInput.pointerMoveListener;
  match pointerMoveListener with
  | Some type =>
      removeEventListener type pointerMove;;
      assign (SetInput.pointerMoveListener None)
  | None => mret tt
  end;;
  pointerUpListener ← this MoveInput.pointerUpListener;
  match pointerUpListener with
  | Some type =>
      removeEventListener type pointerUp;;
      assign (SetInput.pointerUpListener None)
  | None => mret tt
  end;;
  assign (SetInput.moveInputState STATE.waitForInputStart).

(** The call [this.setMoveInputState(STATE.reset)]. *)
Definition enterReset : M unit :=
  assign (SetInput.moveInputState STATE.reset);;
  caseReset.

Definition setMoveInputState (newState : STATE.t) (params : option Params.t) : M unit :=
  prevState ← this MoveInput.moveInputState;
  assign (SetInput.moveInputState newState);;
  match newState with
  | STATE.waitForInputStart => mret tt

  | STATE.pieceClickedThreshold =>
      if negb (STATE.eqb STATE.waitForInputStart prevState)
      then throw (Error "moveInputState")
      else
        index ← param params Params.index;
        assign (SetInput.startIndex index);;
        assign (SetInput.endIndex null);;
        piece ← param params Params.piece;
        assign (SetInput.movedPiece piece);;
        updateStartEndMarkers;;
        point ← param params Params.point;
        assign (SetInput.startPoint point);;
        pointerMoveListener ← this MoveInput.pointerMoveListener;
        pointerUpListener ← this MoveInput.pointerUpListener;
        match pointerMoveListener, pointerUpListener with
        | None, None =>
            type ← param params Params.type;
            match type with
            | Some mousedown =>
                assign (SetInput.pointerMoveListener (Some mousemove));;
                addEventListener mousemove pointerMove;;
                assign (SetInput.pointerUpListener (Some mouseup));;
                addEventListener mouseup pointerUp
            | Some touchstart =>
                assign (SetInput.pointerMoveListener (Some touchmove));;
                addEventListener touchmove pointerMove;;
                assign (SetInput.pointerUpListener (Some touchend));;
                addEventListener touchend pointerUp
            | _ => throw (Error "event type")
            end
        | _, _ => throw (Error "_pointerMoveListener or _pointerUpListener")
        end

  | STATE.clickTo =>
      removeDraggablePiece;;
      if STATE.eqb prevState STATE.dragTo
      then index ← param params Params.index; setPieceVisibility index true
      else mret tt

  | STATE.secondClickThreshold =>
      if negb (STATE.eqb STATE.clickTo prevState)
      then throw (Error "moveInputState")
      else point ← param params Params.point; assign (SetInput.startPoint point)

  | STATE.dragTo =>
      if negb (STATE.eqb STATE.pieceClickedThreshold prevState)
      then throw (Error "moveInputState")
      else
        mode ← gets (fun w => Props.moveInputMode (props w));
        if isDragPiece mode
        then
          index ← param params Params.index;
          setPieceVisibility index false;;
          piece ← param params Params.piece;
          createDraggablePiece piece
        else mret tt

  | STATE.clickDragTo =>
      if negb (STATE.eqb STATE.secondClickThreshold prevState)
      then throw (Error "moveInputState")
      else
        mode ← gets (fun w => Props.moveInputMode (props w));
        if isDragPiece mode
        then
          index ← param params Params.index;
          setPieceVisibility index false;;
          piece ← param params Params.piece;
          createDraggablePiece piece
        else mret tt

  | STATE.moveDone =>
      if negb (STATE.eqb prevState STATE.dragTo || STATE.eqb prevState STATE.clickTo
               || STATE.eqb prevState STATE.clickDragTo)
      then throw (Error "moveInputState")
      else
        index ← param params Params.index;
        assign (SetInput.endIndex index);;
        endIndex ← this MoveInput.endIndex;
        startIndex ← this MoveInput.startIndex;
        accepted ← (if truthyIndex endIndex
                     then moveDoneCallback startIndex endIndex
                     else ret false);
        if (accepted : bool)
        then
          prevSquares ← gets (fun w => State.squares (state w));
          setPiece startIndex null;;
          movedPiece ← this MoveInput.movedPiece;
          setPiece endIndex movedPiece;;
          if STATE.eqb prevState STATE.clickTo
          then
            squares ← gets (fun w => State.squares (state w));
            animatePieces prevSquares squares resetMoveInput
          else
            squares ← gets (fun w => State.squares (state w));
            drawPieces squares;;
            enterReset
        else
          drawPiecesDebounced;;
          enterReset

  | STATE.reset => caseReset
  end.

Definition typeOfDown (e : PointerDown) : EventType :=
  match e with
  | MouseDown _ _ _ _ => mousedown
  | TouchStart _ _ _ => touchstart
  end.

Definition targetOfDown (e : PointerDown) : Element.t :=
  match e with
  | MouseDown _ target _ _ => target
  | TouchStart target _ _ => target
  end.

(** [{x: e.clientX, y: e.clientY}], of the first touch for a touch start. *)
Definition pointOfDown (e : PointerDown) : Point :=
  match e with
  | MouseDown _ _ clientX clientY => {| x := clientX; y := clientY |}
  | TouchStart _ clientX clientY => {| x := clientX; y := clientY |}
  end.

(** [e.type === "mousedown" && e.button === 0 || e.type === "touchstart"] *)
Definition primaryDown (e : PointerDown) : bool :=
  match e with
  | MouseDown button _ _ _ => Z.eqb button 0
  | TouchStart _ _ _ => true
  end.

(** [pieceName ? pieceName.substr(0, 1) : null] *)
Definition colorOf (pieceName : js string) : js string :=
  match pieceName with
  | val s => if truthyName pieceName then val (String.substring 0 1 s) else null
  | _ => null
  end.

Definition isColor (color : js string) (c : string) : bool :=
  strictEq String.eqb color (val c).

Definition onPointerDown (e : PointerDown) : M unit :=
  if primaryDown e
  then
    let index := Element.getDataIndex (targetOfDown e) in
    pieceElement ← getPiece index;
    let pieceName :=
      match pieceElement with
      | Some p => val (PieceElement.dataPiece p)
      | None => undefined
      end in
    let color :=
      match pieceElement with
      | Some _ => colorOf pieceName
      | None => undefined
      end in
    if negb (sameIndex index undefined)
    then
      moveInputState ← this MoveInput.moveInputState;
      inputWhiteEnabled ← gets (fun w => State.inputWhiteEnabled (state w));
      inputBlackEnabled ← gets (fun w => State.inputBlackEnabled (state w));
      if negb (STATE.eqb moveInputState STATE.waitForInputStart)
         || inputWhiteEnabled && isColor color "w"
         || inputBlackEnabled && isColor color "b"
      then
        let point := pointOfDown e in
        let params :=
          {| Params.index := index; Params.piece := pieceName;
             Params.point := Some point; Params.type := Some (typeOfDown e) |} in
        started ← (if STATE.eqb moveInputState STATE.waitForInputStart
                      && truthyName pieceName
                   then moveStartCallback index
                   else ret false);
        if (started : bool)
        then setMoveInputState STATE.pieceClickedThreshold (Some params)
        else
          if STATE.eqb moveInputState STATE.clickTo
          then
            startIndex ← this MoveInput.startIndex;
            if sameIndex index startIndex
            then setMoveInputState STATE.secondClickThreshold (Some params)
            else setMoveInputState STATE.moveDone
                   (Some {| Params.index := index; Params.piece := undefined;
                            Params.point := None; Params.type := None |})
          else mret tt
      else mret tt
    else mret tt
  else mret tt.

Definition pageOfMove (e : PointerMove) : Z * Z :=
  match e with
  | MouseMove pageX pageY _ => (pageX, pageY)
  | TouchMove pageX pageY _ => (pageX, pageY)
  end.

Definition targetOfMove (e : PointerMove) : option Element.t :=
  match e with
  | MouseMove _ _ target => target
  | TouchMove _ _ elementFromPoint => elementFromPoint
  end.

(** [Math.abs(this.startPoint.x - x) > DRAG_THRESHOLD ||
     Math.abs(this.startPoint.y - y) > DRAG_THRESHOLD] *)
Definition beyondThreshold (startPoint : Point) (px py : Z) : bool :=
  (DRAG_THRESHOLD <? Z.abs (x startPoint - px))%Z
  || (DRAG_THRESHOLD <? Z.abs (y startPoint - py))%Z.

Definition onPointerMove (e : PointerMove) : M unit :=
  let '(px, py) := pageOfMove e in
  let target := targetOfMove e in
  moveInputState ← this MoveInput.moveInputState;
  mode ← gets (fun w => Props.moveInputMode (props w));
  if STATE.eqb moveInputState STATE.pieceClickedThreshold
     || STATE.eqb moveInputState STATE.secondClickThreshold
  then
    startPoint ← this MoveInput.startPoint;
    match startPoint with
    | None => throw TypeError
    | Some startPoint =>
        if beyondThreshold startPoint px py
        then
          startIndex ← this MoveInput.startIndex;
          movedPiece ← this MoveInput.movedPiece;
          let params :=
            {| Params.index := startIndex; Params.piece := movedPiece;
               Params.point := None; Params.type := None |} in
          (if STATE.eqb moveInputState STATE.secondClickThreshold
           then setMoveInputState STATE.clickDragTo (Some params)
           else setMoveInputState STATE.dragTo (Some params));;
          if isDragPiece mode then moveDraggablePiece px py else mret tt
        else mret tt
    end
  else
    if STATE.eqb moveInputState STATE.dragTo
       || STATE.eqb moveInputState STATE.clickDragTo
       || STATE.eqb moveInputState STATE.clickTo
    then
      startIndex ← this MoveInput.startIndex;
      endIndex ← this MoveInput.endIndex;
      match target with
      | Some element =>
          if Element.inBoardGroup element
          then
            let index := Element.getDataIndex element in
            if negb (sameIndex index startIndex) && negb (sameIndex index endIndex)
            then assign (SetInput.endIndex index);; updateStartEndMarkers
            else
              if sameIndex index startIndex && negb (sameIndex endIndex null)
              then assign (SetInput.endIndex null);; updateStartEndMarkers
              else mret tt
          else
            if negb (sameIndex endIndex null)
            then assign (SetInput.endIndex null);; updateStartEndMarkers
            else mret tt
      | None =>
          if negb (sameIndex endIndex null)
          then assign (SetInput.endIndex null);; updateStartEndMarkers
          else mret tt
      end;;
      if isDragPiece mode
         && (STATE.eqb moveInputState STATE.dragTo
             || STATE.eqb moveInputState STATE.clickDragTo)
      then moveDraggablePiece px py
      else mret tt
    else mret tt.

Definition targetOfUp (e : PointerUp) : option Element.t :=
  match e with
  | MouseUp target => target
  | TouchEnd elementFromPoint => elementFromPoint
  end.

Definition onPointerUp (e : PointerUp) : M unit :=
  match targetOfUp e with
  | Some target =>
      let index := Element.getDataIndex target in
      if truthyIndex index
      then
        moveInputState ← this MoveInput.moveInputState;
        if STATE.eqb moveInputState STATE.dragTo
           || STATE.eqb moveInputState STATE.clickDragTo
        then
          startIndex ← this MoveInput.startIndex;
          if sameIndex startIndex index
          then
            if STATE.eqb moveInputState STATE.clickDragTo
            then
              movedPiece ← this MoveInput.movedPiece;
              setPiece startIndex movedPiece;;
              setPieceVisibility startIndex true;;
              enterReset
            else
              setMoveInputState STATE.clickTo
                (Some {| Params.index := index; Params.piece := undefined;
                         Params.point := None; Params.type := None |})
          else
            setMoveInputState STATE.moveDone
              (Some {| Params.index := index; Params.piece := undefined;
                       Params.point := None; Params.type := None |})
        else
          if STATE.eqb moveInputState STATE.pieceClickedThreshold
          then
            setMoveInputState STATE.clickTo
              (Some {| Params.index := index; Params.piece := undefined;
                       Params.point := None; Params.type := None |})
          else
            if STATE.eqb moveInputState STATE.secondClickThreshold
            then
              enterReset;;
              moveCanceledCallback secondClick index
            else mret tt
      else
        drawPiecesDebounced;;
        enterReset;;
        moveCanceledCallback movedOutOfBoard undefined
  | None =>
      drawPiecesDebounced;;
      enterReset
  end.

(** [reset()], also what [destroy()] does. *)
Definition reset : M unit := enterReset.

(** ** What happens between the handlers *)

(** The timer of [drawPiecesDebounced] fires. *)
Definition drawPiecesTimeout : M unit :=
  pending ← gets (fun w => View.drawPiecesDebounce (view w));
  if (pending : bool)
  then
    modify (withView (SetView.drawPiecesDebounce false));;
    squares ← gets (fun w => State.squares (state w));
    drawPieces squares
  else mret tt.

(** The timer of [drawMarkersDebounced] fires. *)
Definition drawMarkersTimeout : M unit :=
  pending ← gets (fun w => View.drawMarkersDebounce (view w));
  if (pending : bool)
  then modify (withView (SetView.drawMarkersDebounce false));; drawMarkers
  else mret tt.

Definition invoke (callback : Callback) : M unit :=
  match callback with
  | noCallback => mret tt
  | resetMoveInput => enterReset
  | applicationCallback id => record (calledApplication id)
  end.

(** The function [nextPieceAnimationInQueue] gives to the animation it
    starts, for the queue entry [nextAnimation]. *)
Definition animationCallback (nextAnimation : Animation.t) : M unit :=
  draggablePiece ← this MoveInput.draggablePiece;
  match draggablePiece with
  | None => drawPieces (Animation.toSquares nextAnimation)
  | Some _ => mret tt
  end;;
  nextPieceAnimationInQueue;;
  invoke (Animation.callback nextAnimation).

(** Modelled from the spec: the end of a [ChessboardPiecesAnimation]
    (ChessboardPiecesAnimation.js is not among the sources).  The animation
    at position [k] among those playing completes: the view is no longer
    marked as running, and the callback the animation was built with is
    called. *)
Definition animationCompletes (k : nat) : M unit :=
  playing ← gets (fun w => View.playing (view w));
  match playing !! k with
  | Some a =>
      modify (withView (fun v =>
        SetView.animationRunning false (SetView.playing (delete k (View.playing v)) v)));;
      animationCallback (PiecesAnimation.entry a)
  | None => mret tt
  end.

(** Everything that can happen to a board on the page. *)
Inductive Event : Type :=
| pointerDownEvent (e : PointerDown)
| pointerMoveEvent (e : PointerMove)
| pointerUpEvent (e : PointerUp)
| drawPiecesTimer
| drawMarkersTimer
| animationEnd (k : nat)
| animatePiecesCall (fromSquares toSquares : list (js string)) (id : option nat)
| resetCall.

Definition typeOfMove (e : PointerMove) : EventType :=
  match e with
  | MouseMove _ _ _ => mousemove
  | TouchMove _ _ _ => touchmove
  end.

Definition typeOfUp (e : PointerUp) : EventType :=
  match e with
  | MouseUp _ => mouseup
  | TouchEnd _ => touchend
  end.

Definition listening (type : EventType) (l : Listener) (w : World) : bool :=
  existsb (fun r => sameEventType (fst r) type && sameListener (snd r) l)
    (windowListeners w).

(** An event reaches a handler through a listener: the view listens for
    pointer-down on the board unless the board is view only, the move input
    listens on [window] for the rest while it has its listeners there. *)
Definition dispatch (ev : Event) : M unit :=
  match ev with
  | pointerDownEvent e =>
      mode ← gets (fun w => Props.moveInputMode (props w));
      match mode with
      | viewOnly => mret tt
      | _ => onPointerDown e
      end
  | pointerMoveEvent e =>
      registered ← gets (listening (typeOfMove e) pointerMove);
      if (registered : bool) then onPointerMove e else mret tt
  | pointerUpEvent e =>
      registered ← gets (listening (typeOfUp e) pointerUp);
      if (registered : bool) then onPointerUp e else mret tt
  | drawPiecesTimer => drawPiecesTimeout
  | drawMarkersTimer => drawMarkersTimeout
  | animationEnd k => animationCompletes k
  | animatePiecesCall fromSquares toSquares id =>
      animatePieces fromSquares toSquares
        (match id with Some n => applicationCallback n | None => noCallback end)
  | resetCall => reset
  end.

(** The events of a list, one after the other.  An exception ends the
    handler that raised it, not the page: the next event finds the world as
    the exception left it. *)
Fixpoint run (events : list Event) (w : World) : World :=
  match events with
  | [] => w
  | ev :: rest => run rest (worldOf (dispatch ev w))
  end.

End Chessboard.

(** ** A board on the page *)

(** The world after the constructors, with the pieces of [squares] drawn. *)
Definition board (mode : MOVE_INPUT_MODE) (duration : Q) (white black : bool)
  (squares : list (js string)) : World :=
  {| moveInput :=
       {| MoveInput.moveInputState := STATE.waitForInputStart;
          MoveInput.startIndex := undefined;
          MoveInput.endIndex := undefined;
          MoveInput.movedPiece := undefined;
          MoveInput.startPoint := None;
          MoveInput.draggablePiece := None;
          MoveInput.pointerMoveListener := None;
          MoveInput.pointerUpListener := None |};
     state :=
       {| State.squares := squares;
          State.markers := [];
          State.inputWhiteEnabled := white;
          State.inputBlackEnabled := black |};
     view :=
       {| View.piecesGroup := renderPieces squares;
          View.markersGroup := [];
          View.animationRunning := false;
          View.currentAnimation := None;
          View.animationQueue := [];
          View.drawPiecesDebounce := false;
          View.drawMarkersDebounce := false;
          View.playing := [] |};
     props := {| Props.moveInputMode := mode; Props.animationDuration := duration |};
     windowListeners := [];
     calls := [] |}.

(** ** What the properties speak about *)

Definition machineState (w : World) : STATE.t := MoveInput.moveInputState (moveInput w).
Definition placement (w : World) : list (js string) := State.squares (state w).

Definition isMoveMarker (m : Marker.t) : bool := sameMarkerType (Marker.type m) move.

(** The markers of the move highlight. *)
Definition moveMarkers (w : World) : list Marker.t :=
  List.filter isMoveMarker (State.markers (state w)).

(** The initial state of the machine with nothing left of a gesture. *)
Definition idle (w : World) : Prop :=
  machineState w = STATE.waitForInputStart
  /\ MoveInput.startIndex (moveInput w) = null
  /\ MoveInput.endIndex (moveInput w) = null
  /\ MoveInput.movedPiece (moveInput w) = null
  /\ moveMarkers w = []
  /\ MoveInput.draggablePiece (moveInput w) = None
  /\ MoveInput.pointerMoveListener (moveInput w) = None
  /\ MoveInput.pointerUpListener (moveInput w) = None
  /\ windowListeners w = [].

(** The listeners on [window] are those the move input remembers: none, the
    mouse pair or the touch pair. *)
Inductive Registered : option EventType -> option EventType
                       -> list (EventType * Listener) -> Prop :=
| registeredNone : Registered None None []
| registeredMouse :
    Registered (Some mousemove) (Some mouseup)
      [(mousemove, pointerMove); (mouseup, pointerUp)]
| registeredTouch :
    Registered (Some touchmove) (Some touchend)
      [(touchmove, pointerMove); (touchend, pointerUp)].

Definition listenersCoherent (w : World) : Prop :=
  Registered (MoveInput.pointerMoveListener (moveInput w))
    (MoveInput.pointerUpListener (moveInput w)) (windowListeners w).

(** [endIndex] is unset while no gesture is under way and while the first
    click has not been told from a drag. *)
Definition endIndexUnset (w : World) : Prop :=
  (machineState w = STATE.waitForInputStart ->
     truthyIndex (MoveInput.endIndex (moveInput w)) = false)
  /\ (machineState w = STATE.pieceClickedThreshold ->
        MoveInput.endIndex (moveInput w) = null).

(** The view is marked as running exactly while one animation plays. *)
Definition oneAnimation (w : World) : Prop :=
  (View.animationRunning (view w) = true /\ length (View.playing (view w)) = 1)
  \/ (View.animationRunning (view w) = false /\ View.playing (view w) = []).

Definition invariant (w : World) : Prop :=
  listenersCoherent w /\ endIndexUnset w /\ oneAnimation w.

(** The queue entries of the animations started so far, oldest first. *)
Definition startedEntries (cs : list Call) : list Animation.t :=
  flat_map (fun c => match c with
                     | startedAnimation a => [PiecesAnimation.entry a]
                     | _ => []
                     end) cs.

(** The markers after [updateStartEndMarkers] with the given ends. *)
Definition markersFor (w : World) (startIndex endIndex : js nat) : list Marker.t :=
  (List.filter (fun m => negb (isMoveMarker m)) (State.markers (state w))
   ++ (if truthyIndex startIndex
       then [{| Marker.index := startIndex; Marker.type := move |}] else []))
  ++ (if truthyIndex endIndex
      then [{| Marker.index := endIndex; Marker.type := move |}] else []).

(** The predecessors the transition table of the specification allows for
    the guarded states; the other states have no guard. *)
Definition allowedPredecessor (newState prevState : STATE.t) : bool :=
  match newState with
  | STATE.pieceClickedThreshold => STATE.eqb prevState STATE.waitForInputStart
  | STATE.secondClickThreshold => STATE.eqb prevState STATE.clickTo
  | STATE.dragTo => STATE.eqb prevState STATE.pieceClickedThreshold
  | STATE.clickDragTo => STATE.eqb prevState STATE.secondClickThreshold
  | STATE.moveDone =>
      STATE.eqb prevState STATE.clickTo || STATE.eqb prevState STATE.dragTo
      || STATE.eqb prevState STATE.clickDragTo
  | _ => true
  end.

(** Requests that the machine must refuse, with the message of the error. *)
Inductive Refused (w : World) : STATE.t -> option Params.t -> string -> Prop :=
| refusedPredecessor newState params :
    allowedPredecessor newState (machineState w) = false ->
    Refused w newState params "moveInputState"
| refusedListeners p :
    machineState w = STATE.waitForInputStart ->
    MoveInput.pointerMoveListener (moveInput w) <> None
    \/ MoveInput.pointerUpListener (moveInput w) <> None ->
    Refused w STATE.pieceClickedThreshold (Some p)
      "_pointerMoveListener or _pointerUpListener".

(** Whether the colour of a piece name may be moved by the user now. *)
Definition inputEnabledFor (w : World) (pieceName : string) : bool :=
  State.inputWhiteEnabled (state w) && isColor (colorOf (val pieceName)) "w"
  || State.inputBlackEnabled (state w) && isColor (colorOf (val pieceName)) "b".

(** The piece drawn on the element hit by a pointer-down. *)
Definition pieceUnder (e : PointerDown) (w : World) : option PieceElement.t :=
  findPiece (Element.getDataIndex (targetOfDown e)) (View.piecesGroup (view w)).

(** The start square holds the piece the gesture moves. *)
Definition startHoldsMovedPiece (w : World) : Prop :=
  forall s, MoveInput.startIndex (moveInput w) = val s ->
            placement w !! s = Some (MoveInput.movedPiece (moveInput w)).

(** The calls made between two worlds of a run include an accepted move. *)
Definition acceptedMoveBetween (w w' : World) : Prop :=
  exists new a b, calls w' = calls w ++ new /\ In (calledMoveDone a b true) new.

(** Worlds that a board on the page can reach. *)
Definition reachable (cb : option (InputEvent -> bool)) (w : World) : Prop :=
  exists mode duration white black squares events,
    w = run cb events (board mode duration white black squares).

(** ** The worlds after the reset and after the markers are redone *)

(** The world after [updateStartEndMarkers]. *)
Definition markersUpdated (w : World) : World :=
  withView (SetView.drawMarkersDebounce true)
    (withState
       (SetState.markers
          (markersFor w (MoveInput.startIndex (moveInput w))
             (MoveInput.endIndex (moveInput w)))) w).

Definition unlisten (l : Listener) (type : option EventType)
  (ls : list (EventType * Listener)) : list (EventType * Listener) :=
  match type with
  | Some t => List.filter (fun r => negb (sameEventType (fst r) t && sameListener (snd r) l)) ls
  | None => ls
  end.

(** The world after [setMoveInputState(STATE.reset)]. *)
Definition afterReset (w : World) : World :=
  let m := moveInput w in
  {| moveInput :=
       {| MoveInput.moveInputState := STATE.waitForInputStart;
          MoveInput.startIndex := null;
          MoveInput.endIndex := null;
          MoveInput.movedPiece := null;
          MoveInput.startPoint := MoveInput.startPoint m;
          MoveInput.draggablePiece := None;
          MoveInput.pointerMoveListener := None;
          MoveInput.pointerUpListener := None |};
     state :=
       {| State.squares :=
            match MoveInput.startIndex m with
            | val s =>
                if negb (truthyIndex (MoveInput.endIndex m))
                   && truthyName (MoveInput.movedPiece m)
                then <[s := MoveInput.movedPiece m]> (State.squares (state w))
                else State.squares (state w)
            | _ => State.squares (state w)
            end;
          State.markers :=
            List.filter (fun k => negb (isMoveMarker k)) (State.markers (state w));
          State.inputWhiteEnabled := State.inputWhiteEnabled (state w);
          State.inputBlackEnabled := State.inputBlackEnabled (state w) |};
     view := SetView.drawMarkersDebounce true (view w);
     props := props w;
     windowListeners :=
       unlisten pointerUp (MoveInput.pointerUpListener m)
         (unlisten pointerMove (MoveInput.pointerMoveListener m) (windowListeners w));
     calls := calls w |}.

(** ** Boards and gestures used as examples *)

Definition square (i : nat) : Element.t :=
  {| Element.inBoardGroup := true; Element.dataIndex := Some i |}.

(** An element of the page outside the board. *)
Definition offBoard : Element.t :=
  {| Element.inBoardGroup := false; Element.dataIndex := None |}.

Definition noPieces : list (js string) := replicate 64 null.

(** A white pawn on square 12, nothing else. *)
Definition pawnOn12 : list (js string) := <[12 := val "wp"%string]> noPieces.

(** A white pawn on 12 and a black pawn on 52; the black pawn moved to 36. *)
Definition twoPawns : list (js string) := <[52 := val "bp"%string]> pawnOn12.
Definition blackPawnMoved : list (js string) := <[36 := val "bp"%string]> pawnOn12.

Definition exampleBoard (squares : list (js string)) : World :=
  board dragPiece (300 # 1) true true squares.

(** A click on the pawn, the mouse then rests over square 28, and the pawn
    is tapped on a touch screen. *)
Definition clickHoverTap : list Event :=
  [ pointerDownEvent (MouseDown 0 (square 12) 100 100);
    pointerUpEvent (MouseUp (Some (square 12)));
    pointerMoveEvent (MouseMove 150 150 (Some (square 28)));
    pointerDownEvent (TouchStart (square 12) 100 100) ].

(** The pawn is dragged with a finger. *)
Definition touchDrag : list Event :=
  [ pointerDownEvent (TouchStart (square 12) 100 100);
    pointerMoveEvent (TouchMove 110 110 (Some (square 12))) ].

(** The pawn is dragged with the mouse. *)
Definition mouseDrag : list Event :=
  [ pointerDownEvent (MouseDown 0 (square 12) 100 100);
    pointerMoveEvent (MouseMove 110 110 (Some (square 12))) ].

(** The pawn is moved from 12 to 28 by two clicks, the mouse button being
    released outside the board; while that move is still animated the pawn
    is dragged on from 28 to 36; then the animation ends. *)
Definition moveDuringAnimation : list Event :=
  [ pointerDownEvent (MouseDown 0 (square 12) 100 100);
    pointerUpEvent (MouseUp (Some (square 12)));
    pointerDownEvent (MouseDown 0 (square 28) 100 100);
    pointerUpEvent (MouseUp (Some offBoard));
    drawPiecesTimer;
    pointerDownEvent (MouseDown 0 (square 28) 100 100);
    pointerMoveEvent (MouseMove 150 150 (Some (square 36)));
    pointerUpEvent (MouseUp (Some (square 36)));
    animationEnd 0 ].

(** After that, the pawn drawn on 28 is picked up again. *)
Definition pickUpStalePiece : list Event :=
  moveDuringAnimation
  ++ [ pointerDownEvent (MouseDown 0 (square 28) 100 100);
       pointerMoveEvent (MouseMove 150 150 (Some (square 29))) ].


(** The pawn was clicked: the machine is in [clickTo]. *)
Definition pawnClicked : World :=
  run None [ pointerDownEvent (MouseDown 0 (square 12) 100 100);
             pointerUpEvent (MouseUp (Some (square 12))) ]
    (exampleBoard pawnOn12).

(** The application that rejects every move. *)
Definition rejectMoves : option (InputEvent -> bool) :=
  Some (fun e => match e with moveDoneEvent _ _ => false | _ => true end).


Definition toSquare (i : nat) : Params.t :=
  {| Params.index := val i; Params.piece := undefined;
     Params.point := None; Params.type := None |}.

(** ** More invariants of a board on the page *)

(** The markers of the move highlight for the given ends. *)
Definition moveMarkersOf (startIndex endIndex : js nat) : list Marker.t :=
  (if truthyIndex startIndex
   then [{| Marker.index := startIndex; Marker.type := move |}] else [])
  ++ (if truthyIndex endIndex
      then [{| Marker.index := endIndex; Marker.type := move |}] else []).

(** The move input has its listeners on [window] exactly while the machine
    is away from [waitForInputStart]. *)
Definition listenersFollowGesture (w : World) : Prop :=
  listenersCoherent w
  /\ (machineState w = STATE.waitForInputStart <->
      MoveInput.pointerMoveListener (moveInput w) = None).

(** A draggable piece exists only while a piece is dragged, in the mode
    that shows one. *)
Definition draggableOnlyWhileDragging (w : World) : Prop :=
  MoveInput.draggablePiece (moveInput w) <> None ->
  (machineState w = STATE.dragTo \/ machineState w = STATE.clickDragTo)
  /\ Props.moveInputMode (props w) = dragPiece.

(** The squares that carry a group of the pieces group. *)
Definition drawnSquares (w : World) : list nat :=
  map PieceElement.dataIndex (View.piecesGroup (view w)).

(** No square of the board carries two groups, and every group is on a
    square of the board. *)
Definition onePiecePerSquare (w : World) : Prop :=
  List.NoDup (drawnSquares w) /\ Forall (fun i => i < 64) (drawnSquares w).

(** [startIndex] and [movedPiece] are unset while no gesture is under way,
    and name a square and a piece while one is. *)
Definition gestureFields (w : World) : Prop :=
  (machineState w = STATE.waitForInputStart ->
     truthyIndex (MoveInput.startIndex (moveInput w)) = false
     /\ truthyName (MoveInput.movedPiece (moveInput w)) = false)
  /\ (machineState w <> STATE.waitForInputStart ->
        exists s name,
          MoveInput.startIndex (moveInput w) = val s
          /\ MoveInput.movedPiece (moveInput w) = val name
          /\ name <> EmptyString /\ s < 64).

(** The move highlight shows the ends of the gesture, except while a move
    is being committed. *)
Definition markersMirrorGesture (w : World) : Prop :=
  machineState w <> STATE.moveDone ->
  moveMarkers w =
    moveMarkersOf (MoveInput.startIndex (moveInput w)) (MoveInput.endIndex (moveInput w)).

(** Whether [drawPieces] draws a piece on square [i]. *)
Definition occupied (squares : list (js string)) (i : nat) : bool :=
  match squares !! i with
  | Some pieceName => truthyName pieceName
  | None => false
  end.

(** The exception a computation ended with, if it threw. *)
Definition thrown {A : Type} (r : Result A) : option Exception :=
  match r with
  | Ok _ _ => None
  | Throw e _ => Some e
  end.

(** The listeners [case STATE.pieceClickedThreshold] puts on [window] for
    a gesture begun by the given pointer-down. *)
Definition gestureListeners (e : PointerDown) : list (EventType * Listener) :=
  match e with
  | MouseDown _ _ _ _ => [(mousemove, pointerMove); (mouseup, pointerUp)]
  | TouchStart _ _ _ => [(touchmove, pointerMove); (touchend, pointerUp)]
  end.

(** The markers that are not of the move highlight. *)
Definition otherMarkers (w : World) : list Marker.t :=
  List.filter (fun m => negb (isMoveMarker m)) (State.markers (state w)).

(** The events of the pointer. *)
Definition isPointerEvent (ev : Event) : bool :=
  match ev with
  | pointerDownEvent _ | pointerMoveEvent _ | pointerUpEvent _ => true
  | _ => false
  end.

(** A board that only shows a position. *)
Definition viewOnlyBoard (w : World) : Prop :=
  Props.moveInputMode (props w) = viewOnly /\ windowListeners w = [].

(** A piece is clicked on square [s], then square [e] is clicked, and the
    animation of the move ends. *)
Definition clickMove (s e : nat) (x y : Z) : list Event :=
  [ pointerDownEvent (MouseDown 0 (square s) x y);
    pointerUpEvent (MouseUp (Some (square s)));
    pointerDownEvent (MouseDown 0 (square e) x y);
    pointerUpEvent (MouseUp (Some (square e)));
    animationEnd 0 ].

(** A piece is pressed on square [s] at [(x, y)], dragged to [(x', y')] and
    released over square [e]. *)
Definition dragMove (s e : nat) (x y x' y' : Z) : list Event :=
  [ pointerDownEvent (MouseDown 0 (square s) x y);
    pointerMoveEvent (MouseMove x' y' (Some (square e)));
    pointerUpEvent (MouseUp (Some (square e))) ].

(** The queue entry of a call [animatePieces(fromSquares, toSquares)]
    without callback. *)
Definition entryOf (squares : list (js string) * list (js string)) : Animation.t :=
  {| Animation.fromSquares := fst squares;
     Animation.toSquares := snd squares;
     Animation.callback := noCallback |}.

(** The calls [animatePieces(fromSquares, toSquares)] for the given steps. *)
Definition animateCalls (steps : list (list (js string) * list (js string)))
  : list Event :=
  map (fun squares => animatePiecesCall (fst squares) (snd squares) None) steps.

(** The application animates the given steps in one go; then the
    animations end, one after the other. *)
Definition burst (steps : list (list (js string) * list (js string))) : list Event :=
  animateCalls steps ++ replicate (length steps) (animationEnd 0).

(** The durations of the animations started so far, oldest first. *)
Definition startedDurations (cs : list Call) : list Q :=
  flat_map (fun c => match c with
                     | startedAnimation a => [PiecesAnimation.duration a]
                     | _ => []
                     end) cs.

(** Nothing is animated and nothing waits to be. *)
Definition quiet (w : World) : Prop :=
  View.animationRunning (view w) = false
  /\ View.playing (view w) = []
  /\ View.animationQueue (view w) = [].

(** The application that refuses every start of a move. *)
Definition refuseStart : option (InputEvent -> bool) :=
  Some (fun e => match e with moveStartEvent _ => false | _ => true end).

(** The pawn is clicked, tapped again with the mouse and dragged. *)
Definition clickThenDrag : list Event :=
  [ pointerDownEvent (MouseDown 0 (square 12) 100 100);
    pointerUpEvent (MouseUp (Some (square 12)));
    pointerDownEvent (MouseDown 0 (square 12) 100 100);
    pointerMoveEvent (MouseMove 110 110 (Some (square 12))) ].

(** A pawn is clicked; the application then animates the board to an empty
    one, which removes the element of the pawn. *)
Definition pawnErased : list Event :=
  [ pointerDownEvent (MouseDown 0 (square 12) 100 100);
    animatePiecesCall pawnOn12 noPieces None;
    animationEnd 0 ].

(** ** ChessboardView: the squares and the coordinates *)

(** Modelled from the spec: [COLOR] of Chessboard.js, which is not among the
    sources; the spec names the white and the black perspective of the
    board. *)
Module COLOR.
Inductive t : Type :=
| white
| black.
End COLOR.

(** [((9 * index) & 8) === 0 ? 'black' : 'white'] *)
Definition squareColor (index : Z) : string :=
  if Z.eqb (Z.land (9 * index) 8) 0 then "black"%string else "white"%string.

(** The index [drawBoard] gives to the [i]-th square it draws. *)
Definition boardIndex (orientation : COLOR.t) (i : Z) : Z :=
  match orientation with
  | COLOR.white => i
  | COLOR.black => (63 - i)%Z
  end.

(** [String.fromCharCode(97 + file)], or [104 - file] from the black side:
    the text of the label of the [file]-th column. *)
Definition fileLabel (orientation : COLOR.t) (file : nat) : string :=
  String (Ascii.ascii_of_nat
            (match orientation with
             | COLOR.white => 97 + file
             | COLOR.black => 104 - file
             end)) EmptyString.

(** [8 - rank], or [1 + rank] from the black side: the text of the label
    of the [rank]-th row. *)
Definition rankLabel (orientation : COLOR.t) (rank : Z) : Z :=
  match orientation with
  | COLOR.white => (8 - rank)%Z
  | COLOR.black => (1 + rank)%Z
  end.

(** The factors of [squareWidth] and of [squareHeight] in
    [squareIndexToPoint]: the column and the row of a square on the page,
    counted from the top left. *)
Definition columnOf (orientation : COLOR.t) (index : Z) : Z :=
  match orientation with
  | COLOR.white => Z.rem index 8
  | COLOR.black => (7 - Z.rem index 8)%Z
  end.

Definition rowOf (orientation : COLOR.t) (index : Z) : Z :=
  match orientation with
  | COLOR.white => (7 - index / 8)%Z
  | COLOR.black => (index / 8)%Z
  end.

Section Geometry.

(** The numbers of the page, with the arithmetic the view does on them;
    nothing is assumed of it. *)
Variable number : Type.
Variable plus minus times divide : number -> number -> number.
Variable integer : Z -> number.
Variable decimal : Q -> number.

(** What [updateMetrics] has stored when the board is drawn. *)
Record Metrics : Type :=
  { width : number;
    height : number;
    borderSize : number;
    squareWidth : number;
    squareHeight : number;
    scalingX : number;
    scalingY : number;
    spriteSize : number }.

Record PagePoint : Type := { pointX : number; pointY : number }.

Definition squareIndexToPoint (m : Metrics) (orientation : COLOR.t) (index : Z)
  : PagePoint :=
  {| pointX := plus (borderSize m) (times (integer (columnOf orientation index))
                                     (squareWidth m));
     pointY := plus (borderSize m) (times (integer (rowOf orientation index))
                                     (squareHeight m)) |}.

(** A [rect] of the board group. *)
Record SquareRect : Type :=
  { rectPoint : PagePoint;
    rectWidth : number;
    rectHeight : number;
    rectClass : string;
    rectIndex : Z }.

(** The squares [drawBoard] adds to the emptied board group, in the order
    of its loop.  The rectangles of the border, which it adds before them,
    carry no index and are left out. *)
Definition drawBoard (m : Metrics) (orientation : COLOR.t) : list SquareRect :=
  map (fun i =>
         let index := boardIndex orientation (Z.of_nat i) in
         {| rectPoint := squareIndexToPoint m orientation index;
            rectWidth := squareWidth m;
            rectHeight := squareHeight m;
            rectClass := ("square " ++ squareColor index)%string;
            rectIndex := index |})
    (seq 0 64).

(** A [text] of the coordinates group; its font size is left out. *)
Record CoordinateText (content : Type) : Type :=
  { textClass : string;
    textX : number;
    textY : number;
    textContent : content }.

(** The label [drawCoordinates] adds for a column. *)
Definition fileCoordinate (m : Metrics) (showBorder : bool) (orientation : COLOR.t)
  (file : nat) : CoordinateText string :=
  let inline := negb showBorder in
  let x := plus (borderSize m)
             (times (plus (integer 17) (times (spriteSize m) (integer (Z.of_nat file))))
                (scalingX m)) in
  let y := minus (height m) (times (scalingY m) (decimal (32 # 10))) in
  let cssClass := "coordinate file"%string in
  {| textClass :=
       if inline
       then (cssClass ++ (if Nat.eqb (file mod 2) 0 then " light" else " dark"))%string
       else cssClass;
     textX := if inline then plus x (times (scalingX m) (decimal (155 # 10))) else x;
     textY :=
       if inline
       then (if showBorder then minus y (times (scalingY m) (integer 11)) else y)
       else y;
     textContent := fileLabel orientation file |}.

(** The label [drawCoordinates] adds for a row. *)
Definition rankCoordinate (m : Metrics) (showBorder : bool) (orientation : COLOR.t)
  (rank : nat) : CoordinateText Z :=
  let inline := negb showBorder in
  let x := divide (borderSize m) (decimal (37 # 10)) in
  let y := plus (plus (borderSize m) (times (integer 25) (scalingY m)))
             (times (integer (Z.of_nat rank)) (squareHeight m)) in
  let cssClass := "coordinate rank"%string in
  {| textClass :=
       if inline
       then (cssClass ++ (if Nat.eqb (rank mod 2) 0 then " dark" else " light"))%string
       else cssClass;
     textX :=
       if inline
       then (if showBorder
             then plus x (times (scalingX m) (integer 10))
             else plus x (times (scalingX m) (integer 2)))
       else x;
     textY :=
       if inline then minus y (times (scalingY m) (integer 15)) else y;
     textContent := rankLabel orientation (Z.of_nat rank) |}.

(** What [drawCoordinates] puts into the emptied coordinates group: the
    labels of the columns, then those of the rows; nothing, and the group is
    left as it is, unless the coordinates are to be shown. *)
Definition drawCoordinates (m : Metrics) (showCoordinates showBorder : bool)
  (orientation : COLOR.t)
  : option (list (CoordinateText string) * list (CoordinateText Z)) :=
  if negb showCoordinates
  then None
  else Some (map (fileCoordinate m showBorder orientation) (seq 0 8),
             map (rankCoordinate m showBorder orientation) (seq 0 8)).

End Geometry.

(** Page metrics in rational numbers, for a board of 400 by 400. *)
Definition exampleMetrics : Metrics Q :=
  {| width := 400 # 1; height := 400 # 1; borderSize := 5 # 4;
     squareWidth := 50 # 1; squareHeight := 50 # 1;
     scalingX := 5 # 4; scalingY := 5 # 4; spriteSize := 40 # 1 |}.

(** ** Proof automation: running the handlers on a symbolic world *)

Ltac evaluate :=
  cbv beta iota zeta delta
    [dispatch onPointerDown onPointerMove onPointerUp reset setMoveInputState
     caseReset drawPiecesTimeout drawMarkersTimeout animationCompletes
     animationCallback invoke animatePieces nextPieceAnimationInQueue
     newChessboardPiecesAnimation createDraggablePiece
     moveDraggablePiece removeDraggablePiece addEventListener removeEventListener
     param moveStartCallback moveDoneCallback moveCanceledCallback
     setPiece addMarker removeMarkers drawPieces drawPiecesDebounced getPiece
     setPieceVisibility drawMarkersDebounced drawMarkers
     this assign record gets modify throw mbind M_bind bind mret M_ret ret
     worldOf returned
     withMoveInput withState withView withWindowListeners withCalls
     SetInput.moveInputState SetInput.startIndex SetInput.endIndex
     SetInput.movedPiece SetInput.startPoint SetInput.draggablePiece
     SetInput.pointerMoveListener SetInput.pointerUpListener
     SetState.squares SetState.markers
     SetView.piecesGroup SetView.markersGroup SetView.animationRunning
     SetView.currentAnimation SetView.animationQueue SetView.drawPiecesDebounce
     SetView.drawMarkersDebounce SetView.playing
     moveInput state view props windowListeners calls
     MoveInput.moveInputState MoveInput.startIndex MoveInput.endIndex
     MoveInput.movedPiece MoveInput.startPoint MoveInput.draggablePiece
     MoveInput.pointerMoveListener MoveInput.pointerUpListener
     State.squares State.markers State.inputWhiteEnabled State.inputBlackEnabled
     View.piecesGroup View.markersGroup View.animationRunning
     View.currentAnimation View.animationQueue View.drawPiecesDebounce
     View.drawMarkersDebounce View.playing
     Props.moveInputMode Props.animationDuration
     Params.index Params.piece Params.point Params.type
     STATE.eqb negb andb orb isDragPiece truthyIndex sameIndex strictEq
     sameEventType sameListener fst snd
     primaryDown typeOfDown targetOfDown pointOfDown pageOfMove targetOfMove
     targetOfUp typeOfMove typeOfUp
     Element.getDataIndex Element.dataIndex Element.inBoardGroup
     machineState placement moveMarkers idle listenersCoherent endIndexUnset
     oneAnimation invariant allowedPredecessor inputEnabledFor pieceUnder
     startHoldsMovedPiece isColor colorOf truthyName
     Animation.fromSquares Animation.toSquares Animation.callback
     PiecesAnimation.fromSquares PiecesAnimation.toSquares
     PiecesAnimation.duration PiecesAnimation.entry answer
     markersUpdated afterReset unlisten markersFor listening] in *.

Ltac evaluate_in H :=
  cbv beta iota zeta delta
    [dispatch onPointerDown onPointerMove onPointerUp reset setMoveInputState
     caseReset drawPiecesTimeout drawMarkersTimeout animationCompletes
     animationCallback invoke animatePieces nextPieceAnimationInQueue
     newChessboardPiecesAnimation createDraggablePiece
     moveDraggablePiece removeDraggablePiece addEventListener removeEventListener
     param moveStartCallback moveDoneCallback moveCanceledCallback
     setPiece addMarker removeMarkers drawPieces drawPiecesDebounced getPiece
     setPieceVisibility drawMarkersDebounced drawMarkers
     this assign record gets modify throw mbind M_bind bind mret M_ret ret
     worldOf returned
     withMoveInput withState withView withWindowListeners withCalls
     SetInput.moveInputState SetInput.startIndex SetInput.endIndex
     SetInput.movedPiece SetInput.startPoint SetInput.draggablePiece
     SetInput.pointerMoveListener SetInput.pointerUpListener
     SetState.squares SetState.markers
     SetView.piecesGroup SetView.markersGroup SetView.animationRunning
     SetView.currentAnimation SetView.animationQueue SetView.drawPiecesDebounce
     SetView.drawMarkersDebounce SetView.playing
     moveInput state view props windowListeners calls
     MoveInput.moveInputState MoveInput.startIndex MoveInput.endIndex
     MoveInput.movedPiece MoveInput.startPoint MoveInput.draggablePiece
     MoveInput.pointerMoveListener MoveInput.pointerUpListener
     State.squares State.markers State.inputWhiteEnabled State.inputBlackEnabled
     View.piecesGroup View.markersGroup View.animationRunning
     View.currentAnimation View.animationQueue View.drawPiecesDebounce
     View.drawMarkersDebounce View.playing
     Props.moveInputMode Props.animationDuration
     Params.index Params.piece Params.point Params.type
     STATE.eqb negb andb orb isDragPiece truthyIndex sameIndex strictEq
     sameEventType sameListener fst snd
     primaryDown typeOfDown targetOfDown pointOfDown pageOfMove targetOfMove
     targetOfUp typeOfMove typeOfUp
     Element.getDataIndex Element.dataIndex Element.inBoardGroup
     machineState placement moveMarkers idle listenersCoherent endIndexUnset
     oneAnimation invariant allowedPredecessor inputEnabledFor pieceUnder
     startHoldsMovedPiece isColor colorOf truthyName
     Animation.fromSquares Animation.toSquares Animation.callback
     PiecesAnimation.fromSquares PiecesAnimation.toSquares
     PiecesAnimation.duration PiecesAnimation.entry answer
     markersUpdated afterReset unlisten markersFor listening] in H.

Ltac break_inner :=
  match goal with
  | |- context [match ?x with _ => _ end] =>
      lazymatch x with
      | context [match _ with _ => _ end] => fail
      | _ => first [is_var x; destruct x | destruct x eqn:?]
      end
  end.

Ltac world w :=
  destruct w as [[st si ei mp sp dp ml ul] [sq mk iw ib]
                 [pg mg ar ca aq dpd dmd pl] [mode dur] wl cl].

Ltac tidy :=
  repeat match goal with
    | H : _ \/ _ |- _ => destruct H
    | H : ex _ |- _ => destruct H
    | H : _ /\ _ |- _ => destruct H
    | H : Nat.eqb _ _ = true |- _ => apply Nat.eqb_eq in H
    | H : Nat.eqb _ _ = false |- _ => apply Nat.eqb_neq in H
    end;
  simplify_eq/=.

(** The subterm that keeps a computation from reducing further. *)
Ltac head_atom t :=
  lazymatch t with
  | match ?x with _ => _ end => head_atom x
  | ?f ?a =>
      lazymatch f with
      | match ?x with _ => _ end => head_atom x
      | ?g ?b =>
          lazymatch g with
          | match ?x with _ => _ end => head_atom x
          | _ => constr:(t)
          end
      | _ => constr:(t)
      end
  | _ => constr:(t)
  end.

Ltac split_atom a :=
  first [ is_var a; destruct a | destruct a eqn:? ].

(** Run the computation in [H : r = m w] to its result, one case per path;
    [summarize a H] may rewrite a call [a] with its equation. *)
Ltac exec_with summarize H :=
  evaluate_in H;
  lazymatch type of H with
  | _ = Ok _ _ => idtac
  | _ = Throw _ _ => idtac
  | _ = ?t =>
      let a := head_atom t in
      first [ summarize a H | split_atom a ];
      exec_with summarize H
  end.

(** Use in the goal the cases that the run has chosen. *)
Ltac recall :=
  repeat match goal with
    | H : ?x = _ |- context [?x] =>
        lazymatch x with
        | context [match _ with _ => _ end] => fail
        | _ => rewrite H
        end
    end;
  evaluate.

(** ** Equations of the reset and of the markers *)

Lemma no_move_marker_left (mk : list Marker.t) :
  List.filter isMoveMarker (List.filter (fun m => negb (isMoveMarker m)) mk) = [].
Proof.
  induction mk as [|m mk IH]; [reflexivity|].
  cbn [List.filter]. destruct (isMoveMarker m) eqn:E; cbn [negb].
  - exact IH.
  - cbn [List.filter]. rewrite E. exact IH.
Qed.

Lemma updateStartEndMarkers_eq w : updateStartEndMarkers w = Ok tt (markersUpdated w).
Proof.
  world w. remember (updateStartEndMarkers _) as r eqn:Hr.
  unfold updateStartEndMarkers in Hr.
  exec_with ltac:(fun a H => fail) Hr; subst r; evaluate; rewrite ?app_nil_r; reflexivity.
Qed.

Ltac summarize_markers a H :=
  lazymatch a with
  | updateStartEndMarkers ?W => rewrite (updateStartEndMarkers_eq W) in H
  end.

Lemma enterReset_eq w : enterReset w = Ok tt (afterReset w).
Proof.
  world w. remember (enterReset _) as r eqn:Hr. unfold enterReset in Hr.
  exec_with summarize_markers Hr; subst r; evaluate; recall; rewrite ?app_nil_r; reflexivity.
Qed.


Ltac summarize a H :=
  lazymatch a with
  | enterReset ?W => rewrite (enterReset_eq W) in H
  | updateStartEndMarkers ?W => rewrite (updateStartEndMarkers_eq W) in H
  end.

Ltac exec_goal :=
  match goal with
  | |- context [worldOf ?t] =>
      let r := fresh "r" in
      let Hr := fresh "Hr" in
      remember t as r eqn:Hr; exec_with summarize Hr; subst r
  end.

Ltac use_registered H :=
  cbv [listenersCoherent moveInput MoveInput.pointerMoveListener
       MoveInput.pointerUpListener windowListeners] in H;
  inversion H; subst; clear H.




(** C9: a request to enter [pieceClickedThreshold],
    [secondClickThreshold], [dragTo], [clickDragTo] or [moveDone] from a
    state that the transition table does not allow as predecessor throws
    [Error("moveInputState")], and a request to enter
    [pieceClickedThreshold] while a move or up listener is registered
    throws as well; the placement and the listeners on [window] are as
    before. *)
Theorem refused_transition_throws cb w newState params message :
  Refused w newState params message ->
  exists w',
    setMoveInputState cb newState params w = Throw (Error message) w'
    /\ placement w' = placement w
    /\ windowListeners w' = windowListeners w.
Proof.
  intros H. destruct H as [newState params H | p Hs Hl]; world w.
  - destruct newState, st; try discriminate H; evaluate; eexists; repeat split.
  - evaluate. subst st. rewrite updateStartEndMarkers_eq. evaluate.
    destruct ml, ul; try (destruct Hl; congruence); eexists; repeat split.
Qed.

(** C10: in [clickTo], a pointer-move over an element of the board group
    whose index differs from [startIndex] and from [endIndex] sets
    [endIndex] to that index and redoes the move markers; a pointer-move
    over the start square, or off the board, leaves [endIndex] null,
    redoing the markers if it was set.  The machine stays in [clickTo],
    no draggable piece appears and the placement is untouched. *)
Theorem click_to_pointer_move cb e w :
  machineState w = STATE.clickTo ->
  let r := onPointerMove cb e w in
  let w' := worldOf r in
  let startIndex := MoveInput.startIndex (moveInput w) in
  let endIndex := MoveInput.endIndex (moveInput w) in
  returned r = true
  /\ machineState w' = STATE.clickTo
  /\ placement w' = placement w
  /\ MoveInput.draggablePiece (moveInput w') = MoveInput.draggablePiece (moveInput w)
  /\ (forall el i,
        targetOfMove e = Some el -> Element.inBoardGroup el = true ->
        Element.dataIndex el = Some i ->
        sameIndex (val i) startIndex = false -> sameIndex (val i) endIndex = false ->
        MoveInput.endIndex (moveInput w') = val i
        /\ State.markers (state w') = markersFor w startIndex (val i)
        /\ View.drawMarkersDebounce (view w') = true)
  /\ (forall el i,
        targetOfMove e = Some el -> Element.inBoardGroup el = true ->
        Element.dataIndex el = Some i -> startIndex = val i ->
        MoveInput.endIndex (moveInput w') = null
        /\ (endIndex <> null ->
            State.markers (state w') = markersFor w startIndex null
            /\ View.drawMarkersDebounce (view w') = true))
  /\ (targetOfMove e = None
      \/ (exists el, targetOfMove e = Some el /\ Element.inBoardGroup el = false) ->
      MoveInput.endIndex (moveInput w') = null
      /\ (endIndex <> null ->
          State.markers (state w') = markersFor w startIndex null
          /\ View.drawMarkersDebounce (view w') = true)).
Proof.
  world w. intros Hs. cbv [machineState moveInput MoveInput.moveInputState] in Hs. subst st.
  destruct e as [px py [[ibg [i|]]|] | px py [[ibg [i|]]|]].
  all: cbv zeta; exec_goal; evaluate.
  all: repeat split; intros; tidy; try congruence.
Qed.







(** C7, as amended: a pointer-up on an element that carries no square
    index, in any state of the machine (so in [dragTo], [clickDragTo] and
    [clickTo]), resets the machine to its idle initial state, schedules a
    redraw and calls [moveCanceledCallback] with [movedOutOfBoard]; the
    placement is as before provided [endIndex] is set or the start square
    holds the moved piece. *)
Theorem pointer_up_off_square_cancels cb e el w :
  targetOfUp e = Some el -> Element.dataIndex el = None ->
  listenersCoherent w ->
  let r := onPointerUp cb e w in
  let w' := worldOf r in
  returned r = true
  /\ idle w'
  /\ calls w' = calls w ++ [calledMoveCanceled movedOutOfBoard undefined]
  /\ View.drawPiecesDebounce (view w') = true
  /\ (truthyIndex (MoveInput.endIndex (moveInput w)) = true \/ startHoldsMovedPiece w ->
      placement w' = placement w).
Proof.
  world w. intros Ht Hd H.
  destruct e as [[[ibg [i|]]|] | [[ibg [i|]]|]]; simpl in Ht; simplify_eq/=.
  all: use_registered H; cbv zeta; exec_goal; evaluate.
  all: repeat split; try apply no_move_marker_left.
  all: intros; tidy; try congruence.
  all: repeat break_inner; try reflexivity.
  all: try discriminate; try congruence.
  all: try (apply list_insert_id); auto.
Qed.

(** ** Invariants of the worlds a board can reach *)

Ltac use_one_animation H :=
  cbv [oneAnimation view View.animationRunning View.playing] in H;
  destruct H as [[-> H] | [-> ->]];
  [ match type of H with
    | length ?pl = 1 =>
        destruct pl as [|? [|? ?]]; try discriminate H; clear H
    end
  | ].

Ltac list_ops :=
  cbn [lookup list_lookup delete list_delete app length] in *.

Lemma registered_dispatch cb ev w :
  listenersCoherent w -> listenersCoherent (worldOf (dispatch cb ev w)).
Proof.
  world w. intros H. use_registered H.
  all: destruct ev; exec_goal; evaluate; try constructor.
Qed.

Lemma endIndex_dispatch cb ev w :
  endIndexUnset w -> endIndexUnset (worldOf (dispatch cb ev w)).
Proof.
  world w. intros H.
  destruct ev; exec_goal; evaluate; destruct H as [H1 H2];
    split; intros; first [congruence | auto].
Qed.

Lemma one_animation_dispatch cb ev w :
  oneAnimation w -> oneAnimation (worldOf (dispatch cb ev w)).
Proof.
  world w. intros H. use_one_animation H.
  all: destruct ev as [e|e|e| | |k|fromSq toSq id|]; try destruct k as [|k].
  all: exec_goal; evaluate; list_ops; try discriminate.
  all: first [left; split; reflexivity | right; split; reflexivity].
Qed.

Lemma invariant_dispatch cb ev w :
  invariant w -> invariant (worldOf (dispatch cb ev w)).
Proof.
  intros (Hl & He & Ha). split; [|split].
  - apply registered_dispatch, Hl.
  - apply endIndex_dispatch, He.
  - apply one_animation_dispatch, Ha.
Qed.

Lemma invariant_board mode duration white black squares :
  invariant (board mode duration white black squares).
Proof.
  split; [constructor | split].
  - split; intros H; [reflexivity | discriminate H].
  - right. split; reflexivity.
Qed.

Lemma invariant_run cb events : forall w, invariant w -> invariant (run cb events w).
Proof.
  induction events as [|ev events IH]; intros w H; [exact H|].
  cbn [run]. apply IH, invariant_dispatch, H.
Qed.

Lemma reachable_invariant cb w : reachable cb w -> invariant w.
Proof.
  intros (mode & duration & white & black & squares & events & ->).
  apply invariant_run, invariant_board.
Qed.


(** ** The placement and the animation queue, event by event *)


Lemma startedEntries_app (a b : list Call) :
  startedEntries (a ++ b) = startedEntries a ++ startedEntries b.
Proof. apply flat_map_app. Qed.






Lemma find_in_rendered (squares : list (js string)) i p : forall indices,
  find (fun q => Nat.eqb (PieceElement.dataIndex q) i)
    (flat_map
       (fun j =>
          match squares !! j with
          | Some (val pieceName) =>
              if truthyName (val pieceName) then [drawPiece j pieceName] else []
          | _ => []
          end) indices) = Some p ->
  squares !! i = Some (val (PieceElement.dataPiece p)).
Proof.
  induction indices as [|j indices IH]; cbn [flat_map]; [discriminate|].
  destruct (squares !! j) as [[| |pieceName]|] eqn:Hj; cbn [app]; try exact IH.
  destruct (truthyName (val pieceName)); cbn [app]; try exact IH.
  cbn [find drawPiece PieceElement.dataIndex].
  destruct (Nat.eqb j i) eqn:E; [|exact IH].
  apply Nat.eqb_eq in E. subst j. intros [= <-]. exact Hj.
Qed.

Lemma findPiece_renderPieces (squares : list (js string)) i p :
  findPiece (val i) (renderPieces squares) = Some p ->
  squares !! i = Some (val (PieceElement.dataPiece p)).
Proof. apply find_in_rendered. Qed.

(** A gesture that starts on a board whose pieces are drawn from the
    placement starts on a square that holds the piece it moves. *)
Lemma gesture_starts_on_placed_piece cb e w :
  View.piecesGroup (view w) = renderPieces (placement w) ->
  machineState w = STATE.waitForInputStart ->
  truthyIndex (MoveInput.startIndex (moveInput w)) = false ->
  startHoldsMovedPiece (worldOf (onPointerDown cb e w)).
Proof.
  world w. cbn [view View.piecesGroup placement state State.squares machineState
                moveInput MoveInput.moveInputState MoveInput.startIndex].
  intros -> -> Hs. destruct e as [b [ibg di] cx cy | [ibg di] cx cy].
  all: exec_goal; evaluate; intros s Hv; simplify_eq; try discriminate.
  all: apply findPiece_renderPieces; assumption.
Qed.

(** While a gesture goes on and no move is accepted, the start square
    keeps holding the piece the gesture moves. *)
Lemma start_holds_during_gesture cb ev w :
  startHoldsMovedPiece w ->
  machineState w <> STATE.waitForInputStart ->
  ~ acceptedMoveBetween w (worldOf (dispatch cb ev w)) ->
  startHoldsMovedPiece (worldOf (dispatch cb ev w)).
Proof.
  world w. unfold acceptedMoveBetween.
  destruct ev; exec_goal; evaluate; intros Hh Hw Hn s Hv; simplify_eq;
    try congruence; try (apply Hh; reflexivity).
  all: try (exfalso; apply Hn; eexists _, _, _;
            split; [rewrite <- ?app_assoc; reflexivity | simpl; eauto 10]; fail).
  all: rewrite ?(list_insert_id sq) by (apply Hh; reflexivity); apply Hh; reflexivity.
Qed.

(** ** The properties over the worlds a board can reach *)



(** C6, as amended: in every world a board can reach, [endIndex] is unset
    ([null], or [undefined] before the first gesture) while the machine is
    in [waitForInputStart], and [null] in [pieceClickedThreshold]. *)
Theorem endIndex_unset_outside_gesture cb w :
  reachable cb w ->
  (machineState w = STATE.waitForInputStart ->
     truthyIndex (MoveInput.endIndex (moveInput w)) = false)
  /\ (machineState w = STATE.pieceClickedThreshold ->
        MoveInput.endIndex (moveInput w) = null).
Proof.
  intros Hr. destruct (reachable_invariant cb w Hr) as (_ & He & _). exact He.
Qed.

Lemma endIndex_unset_outside_gesture_witness :
  MoveInput.endIndex
    (moveInput (run None [pointerDownEvent (MouseDown 0 (square 12) 100 100)]
                  (exampleBoard pawnOn12))) = null.
Proof.
  refine (proj2 (endIndex_unset_outside_gesture None
                   (run None [pointerDownEvent (MouseDown 0 (square 12) 100 100)]
                      (exampleBoard pawnOn12)) _) _).
  - unfold reachable, exampleBoard. eexists _, _, _, _, _, _. reflexivity.
  - vm_compute. reflexivity.
Defined.

(** C6 fails as stated: after a click on the pawn the mouse rests over
    square 28, which sets [endIndex]; a tap on the pawn then enters
    [secondClickThreshold], which leaves [endIndex] as it is. *)
Lemma endIndex_kept_in_secondClickThreshold :
  machineState (run None clickHoverTap (exampleBoard pawnOn12)) =
    STATE.secondClickThreshold
  /\ MoveInput.endIndex (moveInput (run None clickHoverTap (exampleBoard pawnOn12))) =
     val 28.
Proof. vm_compute. split; reflexivity. Qed.




(** C7 fails as stated: a touch that ends where the page has no element
    resets the machine without a call of [moveCanceledCallback]; and the
    release outside the board of a piece drawn from an older placement
    changes the placement. *)
Lemma pointer_up_without_target_is_silent :
  machineState (run None touchDrag (exampleBoard pawnOn12)) = STATE.dragTo
  /\ machineState (worldOf (dispatch None (pointerUpEvent (TouchEnd None))
                             (run None touchDrag (exampleBoard pawnOn12)))) =
     STATE.waitForInputStart
  /\ calls (worldOf (dispatch None (pointerUpEvent (TouchEnd None))
                       (run None touchDrag (exampleBoard pawnOn12)))) =
     calls (run None touchDrag (exampleBoard pawnOn12))
  /\ machineState (run None pickUpStalePiece (exampleBoard pawnOn12)) = STATE.dragTo
  /\ placement (worldOf (dispatch None (pointerUpEvent (MouseUp (Some offBoard)))
                           (run None pickUpStalePiece (exampleBoard pawnOn12)))) <>
     placement (run None pickUpStalePiece (exampleBoard pawnOn12)).
Proof. vm_compute. repeat split; try reflexivity. discriminate. Qed.





Lemma coherent_pawnClicked : listenersCoherent pawnClicked.
Proof. vm_compute. constructor. Qed.




Lemma pointer_up_off_square_cancels_witness :
  calls (worldOf (onPointerUp None (MouseUp (Some offBoard)) pawnClicked)) =
  calls pawnClicked ++ [calledMoveCanceled movedOutOfBoard undefined].
Proof.
  refine (proj1 (proj2 (proj2 (pointer_up_off_square_cancels None
                                 (MouseUp (Some offBoard)) offBoard pawnClicked
                                 _ _ _)))).
  - vm_compute. reflexivity.
  - vm_compute. reflexivity.
  - vm_compute. constructor.
Defined.

Lemma refused_transition_throws_witness :
  exists w',
    setMoveInputState None STATE.dragTo (Some (toSquare 12)) pawnClicked =
      Throw (Error "moveInputState") w'
    /\ placement w' = placement pawnClicked
    /\ windowListeners w' = windowListeners pawnClicked.
Proof.
  apply (refused_transition_throws None pawnClicked STATE.dragTo (Some (toSquare 12))).
  apply refusedPredecessor. vm_compute. reflexivity.
Defined.

Lemma click_to_pointer_move_witness :
  MoveInput.endIndex
    (moveInput (worldOf (onPointerMove None (MouseMove 150 150 (Some (square 28)))
                           pawnClicked))) = val 28.
Proof.
  refine (proj1 (proj1 (proj2 (proj2 (proj2 (proj2
            (click_to_pointer_move None (MouseMove 150 150 (Some (square 28)))
               pawnClicked _)))))
            (square 28) 28 _ _ _ _ _)).
  all: vm_compute; reflexivity.
Defined.

(** ** The scenarios of the specification, run on the model *)

(** Click on the pawn, click on square 28: the move is committed at once,
    the animation plays, and its end resets the machine. *)
Example scenario_click_click_accept :
  machineState pawnClicked = STATE.clickTo
  /\ (let w := run None [pointerDownEvent (MouseDown 0 (square 28) 100 100)] pawnClicked in
      placement w !! 12 = Some null
      /\ placement w !! 28 = Some (val "wp"%string)
      /\ machineState w = STATE.moveDone
      /\ length (View.playing (view w)) = 1
      /\ idle (run None [animationEnd 0] w)
      /\ View.piecesGroup (view (run None [animationEnd 0] w)) =
         renderPieces (placement w)).
Proof. vm_compute. repeat split; reflexivity. Qed.

(** Drag the pawn to square 28 under an application that rejects the
    move: the pawn is hidden and a draggable piece floats while dragging;
    after the drop the placement is as before, the draggable piece is gone,
    and the pending redraw shows the pawn again. *)
Example scenario_drag_reject :
  let dragging := run rejectMoves mouseDrag (exampleBoard pawnOn12) in
  let dropped := run rejectMoves [pointerUpEvent (MouseUp (Some (square 28)))] dragging in
  machineState dragging = STATE.dragTo
  /\ MoveInput.draggablePiece (moveInput dragging) <> None
  /\ View.piecesGroup (view dragging) =
     [{| PieceElement.dataIndex := 12; PieceElement.dataPiece := "wp";
         PieceElement.visible := false |}]
  /\ placement dropped = pawnOn12
  /\ idle dropped
  /\ View.piecesGroup (view (run rejectMoves [drawPiecesTimer] dropped)) =
     renderPieces pawnOn12.
Proof. vm_compute. repeat split; try reflexivity. discriminate. Qed.

(** Click on the pawn, press on it again and release: the gesture is
    canceled with the reason [secondClick]. *)
Example scenario_second_click_cancel :
  let pressed := run None [pointerDownEvent (MouseDown 0 (square 12) 100 100)] pawnClicked in
  let released := run None [pointerUpEvent (MouseUp (Some (square 12)))] pressed in
  machineState pressed = STATE.secondClickThreshold
  /\ idle released
  /\ placement released = pawnOn12
  /\ calls released = calls pressed ++ [calledMoveCanceled secondClick (val 12)].
Proof. vm_compute. repeat split; reflexivity. Qed.

(** Drag the pawn and release it outside the board. *)
Example scenario_out_of_board_cancel :
  let dragging := run None mouseDrag (exampleBoard pawnOn12) in
  let released := run None [pointerUpEvent (MouseUp (Some offBoard))] dragging in
  idle released
  /\ placement released = pawnOn12
  /\ calls released = calls dragging ++ [calledMoveCanceled movedOutOfBoard undefined].
Proof. vm_compute. repeat split; reflexivity. Qed.

(** Three animations are queued while a first one plays: they start in
    the order of their arrival with the durations 300/3, 300/2 and 300/1,
    and the pieces drawn in the end are those of the last target. *)
Example scenario_animation_queue :
  let queued :=
    run None [ animatePiecesCall pawnOn12 twoPawns None;
               animatePiecesCall twoPawns blackPawnMoved (Some 1);
               animatePiecesCall blackPawnMoved twoPawns (Some 2);
               animatePiecesCall twoPawns blackPawnMoved None ]
      (exampleBoard pawnOn12) in
  let played := run None [animationEnd 0; animationEnd 0; animationEnd 0; animationEnd 0]
                  queued in
  length (View.playing (view queued)) = 1
  /\ length (View.animationQueue (view queued)) = 3
  /\ map Animation.callback (startedEntries (calls played)) =
     [noCallback; applicationCallback 1; applicationCallback 2; noCallback]
  /\ flat_map (fun c => match c with
                        | startedAnimation a => [PiecesAnimation.duration a]
                        | _ => []
                        end) (calls played) =
     [durationFor (300 # 1) 0; durationFor (300 # 1) 2;
      durationFor (300 # 1) 1; durationFor (300 # 1) 0]
  /\ View.playing (view played) = []
  /\ View.piecesGroup (view played) = renderPieces blackPawnMoved.
Proof. vm_compute. repeat split; reflexivity. Qed.

(** ** Elements of the pieces group *)

Lemma rendered_squares (squares : list (js string)) : forall indices,
  map PieceElement.dataIndex
    (flat_map
       (fun j =>
          match squares !! j with
          | Some (val pieceName) =>
              if truthyName (val pieceName) then [drawPiece j pieceName] else []
          | _ => []
          end) indices) = List.filter (occupied squares) indices.
Proof.
  induction indices as [|j indices IH]; [reflexivity|].
  cbn [flat_map List.filter]. rewrite map_app, IH. unfold occupied at 2.
  destruct (squares !! j) as [[| |pieceName]|]; try reflexivity.
  destruct (truthyName (val pieceName)); reflexivity.
Qed.

Lemma renderPieces_squares (squares : list (js string)) :
  map PieceElement.dataIndex (renderPieces squares) =
  List.filter (occupied squares) (seq 0 64).
Proof. apply rendered_squares. Qed.

Lemma renderPieces_unique (squares : list (js string)) :
  List.NoDup (map PieceElement.dataIndex (renderPieces squares))
  /\ Forall (fun i => i < 64) (map PieceElement.dataIndex (renderPieces squares)).
Proof.
  rewrite renderPieces_squares. split.
  - apply List.NoDup_filter, List.seq_NoDup.
  - apply List.Forall_forall. intros i Hi. apply List.filter_In in Hi as [Hi _].
    apply List.in_seq in Hi. lia.
Qed.

Lemma setVisibility_squares i visible (g : list PieceElement.t) :
  map PieceElement.dataIndex (setVisibility i visible g) = map PieceElement.dataIndex g.
Proof.
  induction g as [|p g IH]; [reflexivity|]. cbn [setVisibility].
  destruct (Nat.eqb (PieceElement.dataIndex p) i); cbn [map PieceElement.dataIndex].
  - reflexivity.
  - rewrite IH. reflexivity.
Qed.

Lemma findPiece_square i p (g : list PieceElement.t) :
  findPiece (val i) g = Some p ->
  PieceElement.dataIndex p = i /\ In i (map PieceElement.dataIndex g).
Proof.
  cbn [findPiece]. intros H. apply List.find_some in H as [Hin He].
  apply Nat.eqb_eq in He. split; [exact He|]. subst i. apply List.in_map, Hin.
Qed.

(** No event draws a second group on a square. *)
Lemma one_piece_dispatch cb ev w :
  onePiecePerSquare w -> onePiecePerSquare (worldOf (dispatch cb ev w)).
Proof.
  world w. unfold onePiecePerSquare, drawnSquares. cbn [view View.piecesGroup]. intros H.
  destruct ev; exec_goal; cbn [worldOf view View.piecesGroup];
    rewrite ?setVisibility_squares; first [exact H | apply renderPieces_unique].
Qed.

(** ** More of what holds in every world a board can reach *)

(** The invariants of this section, event by event. *)
Lemma listeners_follow_dispatch cb ev w :
  listenersFollowGesture w -> listenersFollowGesture (worldOf (dispatch cb ev w)).
Proof.
  world w. unfold listenersFollowGesture, iff. intros [H [H1 H2]]. use_registered H.
  all: cbn [machineState moveInput MoveInput.moveInputState
            MoveInput.pointerMoveListener] in H1, H2.
  all: destruct ev; exec_goal; evaluate.
  all: split; [try constructor | split; intros; try congruence; auto].
  all: try (discriminate H1; reflexivity).
  all: try (exfalso; discriminate (H2 eq_refl)).
Qed.

Lemma draggable_dispatch cb ev w :
  draggableOnlyWhileDragging w -> draggableOnlyWhileDragging (worldOf (dispatch cb ev w)).
Proof.
  world w. unfold draggableOnlyWhileDragging. intros H.
  destruct ev; exec_goal; evaluate; intros Hd; try congruence.
  all: try exact (H Hd).
  all: try (destruct (H Hd) as [[?|?] ?]; congruence).
  all: try (destruct (H ltac:(discriminate)) as [[?|?] ?]; congruence).
  all: split; [auto | reflexivity].
Qed.

Lemma move_markers_after_update (mk extra : list Marker.t) :
  List.filter isMoveMarker extra = extra ->
  List.filter isMoveMarker
    (List.filter (fun m => negb (isMoveMarker m)) mk ++ extra) = extra.
Proof.
  intros H. rewrite List.filter_app, no_move_marker_left, H. reflexivity.
Qed.

Lemma markers_mirror_dispatch cb ev w :
  markersMirrorGesture w -> markersMirrorGesture (worldOf (dispatch cb ev w)).
Proof.
  world w. unfold markersMirrorGesture, moveMarkersOf. intros H.
  destruct ev; exec_goal; evaluate; intros Hs; try congruence.
  all: try (apply H; congruence).
  all: try apply no_move_marker_left.
  all: rewrite <- ?app_assoc; apply move_markers_after_update.
  all: repeat break_inner; reflexivity.
Qed.

Lemma gesture_fields_dispatch cb ev w :
  onePiecePerSquare w ->
  gestureFields w -> gestureFields (worldOf (dispatch cb ev w)).
Proof.
  world w. unfold gestureFields, onePiecePerSquare, drawnSquares.
  cbn [view View.piecesGroup]. intros [_ Hp] [Hw Hg].
  destruct ev; exec_goal; evaluate; (split; intros Hs; try congruence).
  all: try (apply Hw; congruence).
  all: try (apply Hg; congruence).
  all: try (split; reflexivity).
  all: try match goal with
       | H : findPiece null _ = Some _ |- _ => discriminate H
       end.
  all: match goal with
       | H : findPiece (val ?n) _ = Some ?t |- _ =>
           apply findPiece_square in H as [_ H];
           exists n, (PieceElement.dataPiece t); repeat split;
           [ intros He; rewrite He in *; discriminate
           | exact (proj1 (List.Forall_forall _ _) Hp n H) ]
       end.
Qed.

(** What every event keeps, a run keeps. *)
Lemma run_preserves (P : World -> Prop) cb :
  (forall ev w, P w -> P (worldOf (dispatch cb ev w))) ->
  forall events w, P w -> P (run cb events w).
Proof.
  intros step events. induction events as [|ev events IH]; intros w H; [exact H|].
  cbn [run]. apply IH, step, H.
Qed.



(** X2: in every world a board can reach, the move input has a
    pointer-move and a pointer-up listener on [window], both of the mouse
    or both of the touch screen and nothing else, exactly while the machine
    is away from [waitForInputStart]. *)
Theorem listeners_registered_during_gesture cb w :
  reachable cb w -> listenersFollowGesture w.
Proof.
  intros (mode & duration & white & black & squares & events & ->).
  apply (run_preserves listenersFollowGesture cb (listeners_follow_dispatch cb)).
  split; [constructor | split; reflexivity].
Qed.

Lemma listeners_registered_during_gesture_witness :
  listenersFollowGesture (run None touchDrag (exampleBoard pawnOn12)).
Proof.
  apply (listeners_registered_during_gesture None).
  unfold reachable, exampleBoard. eexists _, _, _, _, _, _. reflexivity.
Defined.

(** X3: in every world a board can reach, a draggable piece exists
    only while the machine is in [dragTo] or [clickDragTo] and the board is
    in the mode [dragPiece]. *)
Theorem draggable_piece_only_while_dragging cb w :
  reachable cb w -> draggableOnlyWhileDragging w.
Proof.
  intros (mode & duration & white & black & squares & events & ->).
  apply (run_preserves draggableOnlyWhileDragging cb (draggable_dispatch cb)).
  intros H. contradiction H. reflexivity.
Qed.

Lemma draggable_piece_only_while_dragging_witness :
  draggableOnlyWhileDragging (run None mouseDrag (exampleBoard pawnOn12)).
Proof.
  apply (draggable_piece_only_while_dragging None).
  unfold reachable, exampleBoard. eexists _, _, _, _, _, _. reflexivity.
Defined.

(** X4: in every world a board can reach and in every state but
    [moveDone], the markers of the move highlight are those of
    [startIndex] and [endIndex], in this order, as far as these are set. *)
Theorem move_markers_mirror_gesture cb w :
  reachable cb w -> markersMirrorGesture w.
Proof.
  intros (mode & duration & white & black & squares & events & ->).
  apply (run_preserves markersMirrorGesture cb (markers_mirror_dispatch cb)).
  intros _. reflexivity.
Qed.

Lemma move_markers_mirror_gesture_witness :
  markersMirrorGesture (run None clickHoverTap (exampleBoard pawnOn12)).
Proof.
  apply (move_markers_mirror_gesture None).
  unfold reachable, exampleBoard. eexists _, _, _, _, _, _. reflexivity.
Defined.

(** X5: in every world a board can reach, [startIndex] and
    [movedPiece] are unset in [waitForInputStart]; in every other state
    [startIndex] is a square below 64 and [movedPiece] a non-empty piece
    name. *)
Theorem gesture_has_start_and_piece cb w :
  reachable cb w -> gestureFields w.
Proof.
  intros (mode & duration & white & black & squares & events & ->).
  apply (run_preserves (fun w => onePiecePerSquare w /\ gestureFields w) cb).
  - intros ev w [H1 H2]. split.
    + apply one_piece_dispatch, H1.
    + apply gesture_fields_dispatch; assumption.
  - split; [apply renderPieces_unique|].
    split; [intros _; split; reflexivity | intros H; contradiction H; reflexivity].
Qed.

Lemma gesture_has_start_and_piece_witness :
  gestureFields (run None clickHoverTap (exampleBoard pawnOn12)).
Proof.
  apply (gesture_has_start_and_piece None).
  unfold reachable, exampleBoard. eexists _, _, _, _, _, _. reflexivity.
Defined.

Ltac exec_eq :=
  match goal with
  | |- ?t = _ -> _ =>
      let r := fresh "r" in
      let Hr := fresh "Hr" in
      remember t as r eqn:Hr; exec_with summarize Hr; subst r
  end.

(** With the listeners and the draggable piece as the invariants say, the
    guards of [setMoveInputState] and of [createDraggablePiece] hold at every
    call the handlers make. *)
Lemma dispatch_throws_type_error cb ev w :
  listenersFollowGesture w -> draggableOnlyWhileDragging w ->
  forall e w', dispatch cb ev w = Throw e w' -> e = TypeError.
Proof.
  world w. unfold listenersFollowGesture, draggableOnlyWhileDragging, iff.
  intros [H [H1 H2]] Hd e w'. use_registered H.
  all: cbn [machineState moveInput MoveInput.moveInputState
            MoveInput.pointerMoveListener MoveInput.draggablePiece
            props Props.moveInputMode] in H1, H2, Hd.
  all: destruct ev; exec_eq; intros [= <- <-]; try reflexivity.
  all: try (specialize (H2 eq_refl); discriminate H2).
  all: try (specialize (H1 eq_refl); discriminate H1).
  all: try (destruct Hd as [[?|?] ?]; [discriminate| |]; discriminate).
  all: try (cbn [existsb] in *; discriminate).
Qed.

Ltac exec_lhs :=
  match goal with
  | |- ?t = _ =>
      let r := fresh "r" in
      let Hr := fresh "Hr" in
      remember t as r eqn:Hr; exec_with summarize Hr; subst r
  end.

(** X6: from a world a board can reach, no event makes a handler
    throw an [Error]: the handlers never ask for a transition that
    [setMoveInputState] refuses, never register the listeners twice and
    never create a second draggable piece.  What can be thrown is the
    TypeError of a piece element that is missing. *)
Theorem handlers_keep_to_transition_table cb ev w :
  reachable cb w ->
  thrown (dispatch cb ev w) = None \/ thrown (dispatch cb ev w) = Some TypeError.
Proof.
  intros (mode & duration & white & black & squares & events & ->).
  assert (H : listenersFollowGesture (run cb events (board mode duration white black squares))
              /\ draggableOnlyWhileDragging
                   (run cb events (board mode duration white black squares))).
  { apply (run_preserves
             (fun w => listenersFollowGesture w /\ draggableOnlyWhileDragging w) cb).
    - intros ev' w [H1 H2]. split.
      + apply listeners_follow_dispatch, H1.
      + apply draggable_dispatch, H2.
    - split; [split; [constructor | split; reflexivity]|].
      intros H. contradiction H. reflexivity. }
  destruct H as [H1 H2].
  destruct (dispatch cb ev _) as [[] w'|e w'] eqn:E; [left; reflexivity|right].
  cbn [thrown]. f_equal. exact (dispatch_throws_type_error cb ev _ H1 H2 e w' E).
Qed.

Lemma handlers_keep_to_transition_table_witness :
  thrown (dispatch None (pointerMoveEvent (MouseMove 110 110 (Some (square 12))))
            (run None pawnErased (exampleBoard pawnOn12))) = None
  \/ thrown (dispatch None (pointerMoveEvent (MouseMove 110 110 (Some (square 12))))
               (run None pawnErased (exampleBoard pawnOn12))) = Some TypeError.
Proof.
  apply (handlers_keep_to_transition_table None).
  unfold reachable, exampleBoard. eexists _, _, _, _, _, _. reflexivity.
Defined.

Example pawnErased_throws :
  thrown (dispatch None (pointerMoveEvent (MouseMove 110 110 (Some (square 12))))
            (run None pawnErased (exampleBoard pawnOn12))) = Some TypeError.
Proof. vm_compute. reflexivity. Qed.

(** X7: a pointer-down with a mouse button other than the primary
    one, or one that arrives while the machine is neither in
    [waitForInputStart] nor in [clickTo], changes nothing and calls
    nothing. *)
Theorem pointer_down_ignored cb e w :
  primaryDown e = false
  \/ (machineState w <> STATE.waitForInputStart /\ machineState w <> STATE.clickTo) ->
  onPointerDown cb e w = Ok tt w.
Proof.
  world w. cbn [machineState moveInput MoveInput.moveInputState].
  intros H. destruct e as [b [ibg di] cx cy | [ibg di] cx cy].
  all: destruct H as [H | [H1 H2]]; cbn [primaryDown] in *; try discriminate H.
  all: exec_lhs; try reflexivity; congruence.
Qed.

Lemma pointer_down_ignored_witness :
  onPointerDown None (MouseDown 2 (square 12) 100 100) (exampleBoard pawnOn12) =
  Ok tt (exampleBoard pawnOn12).
Proof.
  apply (pointer_down_ignored None). left. reflexivity.
Defined.

(** ** The pointer-down handler *)

(** Tests that the hypotheses answer both ways. *)
Ltac contradict_tests :=
  repeat match goal with
         | H : ?c = ?b, H' : context [?c] |- _ =>
             lazymatch b with true => idtac | false => idtac end;
             rewrite H in H'; cbn beta iota in H'
         end;
  try discriminate; try congruence.

(** X8: when the application answers the start of a move with a
    falsy value, the pointer-down on a movable piece leaves the machine,
    the listeners, the markers and the board as they are; the call of the
    callback is all that happened. *)
Theorem move_start_veto cb e w p :
  machineState w = STATE.waitForInputStart ->
  primaryDown e = true ->
  pieceUnder e w = Some p ->
  inputEnabledFor w (PieceElement.dataPiece p) = true ->
  answer cb (moveStartEvent (Element.getDataIndex (targetOfDown e))) = false ->
  onPointerDown cb e w =
    Ok tt (withCalls
             (fun l => l ++ [calledMoveStart (Element.getDataIndex (targetOfDown e)) false])
             w).
Proof.
  world w. unfold pieceUnder, inputEnabledFor.
  cbn [machineState moveInput MoveInput.moveInputState view View.piecesGroup
       state State.inputWhiteEnabled State.inputBlackEnabled].
  intros -> Hb Hp Hc Ha. destruct e as [b [ibg di] cx cy | [ibg di] cx cy].
  all: cbn [primaryDown targetOfDown Element.getDataIndex Element.dataIndex] in *.
  all: exec_lhs; evaluate_in Hc; evaluate_in Ha; evaluate; simplify_eq/=; try congruence.
  all: contradict_tests.
Qed.

Lemma move_start_veto_witness :
  onPointerDown refuseStart (MouseDown 0 (square 12) 100 100) (exampleBoard pawnOn12) =
  Ok tt (withCalls (fun l => l ++ [calledMoveStart (val 12) false])
           (exampleBoard pawnOn12)).
Proof.
  apply (move_start_veto refuseStart (MouseDown 0 (square 12) 100 100)
           (exampleBoard pawnOn12) (drawPiece 12 "wp")); reflexivity.
Defined.

(** X9: a pointer-down on a movable piece in [waitForInputStart]
    that the application accepts enters [pieceClickedThreshold]: the
    square, the piece and the point are recorded, [endIndex] is null, the
    start square is the only move marker, the listeners of the mouse are
    registered for a mouse-down and those of the touch screen for a touch
    start, and neither the placement nor the drawn pieces change. *)
Theorem gesture_start cb e w p :
  machineState w = STATE.waitForInputStart ->
  MoveInput.pointerMoveListener (moveInput w) = None ->
  MoveInput.pointerUpListener (moveInput w) = None ->
  primaryDown e = true ->
  pieceUnder e w = Some p ->
  inputEnabledFor w (PieceElement.dataPiece p) = true ->
  answer cb (moveStartEvent (Element.getDataIndex (targetOfDown e))) = true ->
  let w' := worldOf (onPointerDown cb e w) in
  returned (onPointerDown cb e w) = true
  /\ machineState w' = STATE.pieceClickedThreshold
  /\ MoveInput.startIndex (moveInput w') = Element.getDataIndex (targetOfDown e)
  /\ MoveInput.endIndex (moveInput w') = null
  /\ MoveInput.movedPiece (moveInput w') = val (PieceElement.dataPiece p)
  /\ MoveInput.startPoint (moveInput w') = Some (pointOfDown e)
  /\ moveMarkers w' =
       [{| Marker.index := Element.getDataIndex (targetOfDown e); Marker.type := move |}]
  /\ windowListeners w' = windowListeners w ++ gestureListeners e
  /\ placement w' = placement w
  /\ View.piecesGroup (view w') = View.piecesGroup (view w)
  /\ calls w' =
       calls w ++ [calledMoveStart (Element.getDataIndex (targetOfDown e)) true].
Proof.
  world w. unfold pieceUnder, inputEnabledFor.
  cbn [machineState moveInput MoveInput.moveInputState view View.piecesGroup
       state State.inputWhiteEnabled State.inputBlackEnabled
       MoveInput.pointerMoveListener MoveInput.pointerUpListener].
  cbv zeta. intros -> -> -> Hb Hp Hc Ha.
  destruct e as [b [ibg di] cx cy | [ibg di] cx cy].
  all: cbn [primaryDown targetOfDown Element.getDataIndex Element.dataIndex
            gestureListeners pointOfDown] in *.
  all: match goal with
       | |- context [onPointerDown ?c ?e ?w] =>
           let r := fresh "r" in
           let Hr := fresh "Hr" in
           remember (onPointerDown c e w) as r eqn:Hr; exec_with summarize Hr; subst r
       end.
  all: evaluate_in Hc; evaluate_in Ha; evaluate; simplify_eq/=; try congruence.
  all: contradict_tests.
  all: rewrite ?app_nil_r, ?List.filter_app, ?no_move_marker_left; repeat split.
  all: rewrite <- app_assoc; reflexivity.
Qed.

Lemma gesture_start_witness :
  machineState
    (worldOf (onPointerDown None (TouchStart (square 12) 100 100) (exampleBoard pawnOn12))) =
    STATE.pieceClickedThreshold
  /\ windowListeners
       (worldOf (onPointerDown None (TouchStart (square 12) 100 100)
                   (exampleBoard pawnOn12))) =
     [(touchmove, pointerMove); (touchend, pointerUp)].
Proof.
  pose proof (gesture_start None (TouchStart (square 12) 100 100) (exampleBoard pawnOn12)
                (drawPiece 12 "wp") eq_refl eq_refl eq_refl eq_refl eq_refl eq_refl eq_refl)
    as H.
  cbv zeta in H. split; [apply H|]. apply H.
Defined.

(** X17: in [clickTo], a primary pointer-down on an element of the
    board that carries no square index ends the gesture silently: the
    pieces are scheduled to be redrawn and the machine is reset, with
    neither [moveDoneCallback] nor [moveCanceledCallback] called. *)
Theorem second_click_off_square_ends_silently cb e w :
  machineState w = STATE.clickTo ->
  primaryDown e = true ->
  Element.getDataIndex (targetOfDown e) = null ->
  MoveInput.startIndex (moveInput w) <> null ->
  onPointerDown cb e w =
    Ok tt (afterReset
             (withView (SetView.drawPiecesDebounce true)
                (withMoveInput (SetInput.endIndex null) w))).
Proof.
  world w. cbn [machineState moveInput MoveInput.moveInputState MoveInput.startIndex].
  intros -> Hb Hi Hs. destruct e as [b [ibg [i|]] cx cy | [ibg [i|]] cx cy].
  all: cbn [primaryDown targetOfDown Element.getDataIndex Element.dataIndex] in *.
  all: try discriminate Hi.
  all: exec_lhs; evaluate; contradict_tests.
Qed.

Lemma second_click_off_square_ends_silently_witness :
  idle (worldOf (onPointerDown None (MouseDown 0 offBoard 300 300) pawnClicked))
  /\ calls (worldOf (onPointerDown None (MouseDown 0 offBoard 300 300) pawnClicked)) =
     calls pawnClicked.
Proof.
  rewrite (second_click_off_square_ends_silently None (MouseDown 0 offBoard 300 300)
             pawnClicked); try reflexivity.
  - vm_compute. repeat split.
  - vm_compute. discriminate.
Defined.

(** The handler alone, its calls of [setMoveInputState] left folded. *)
Ltac evaluate_handler :=
  cbv beta iota zeta delta
    [onPointerDown getPiece moveStartCallback
     this assign record gets modify throw mbind M_bind bind mret M_ret ret
     moveInput state view
     MoveInput.moveInputState MoveInput.startIndex
     State.inputWhiteEnabled State.inputBlackEnabled View.piecesGroup
     STATE.eqb negb andb orb truthyIndex sameIndex strictEq
     primaryDown typeOfDown targetOfDown pointOfDown
     Element.getDataIndex Element.dataIndex
     isColor colorOf truthyName toSquare].

(** X18: in [clickTo], a primary pointer-down on a square other than
    the start square asks for [moveDone] with that square, whatever is
    drawn on it and whichever colours are enabled, and does not call
    [moveStartCallback]. *)
Theorem second_click_requests_move cb e w i :
  machineState w = STATE.clickTo ->
  primaryDown e = true ->
  Element.getDataIndex (targetOfDown e) = val i ->
  MoveInput.startIndex (moveInput w) <> val i ->
  onPointerDown cb e w = setMoveInputState cb STATE.moveDone (Some (toSquare i)) w.
Proof.
  world w. cbn [machineState moveInput MoveInput.moveInputState MoveInput.startIndex].
  intros -> Hb Hi Hs. destruct e as [b [ibg [j|]] cx cy | [ibg [j|]] cx cy].
  all: cbn [primaryDown targetOfDown Element.getDataIndex Element.dataIndex] in *.
  all: simplify_eq.
  all: evaluate_handler; rewrite ?Hb.
  all: destruct si as [| |s]; try reflexivity.
  all: destruct (Nat.eqb i s) eqn:E; [apply Nat.eqb_eq in E; congruence|].
  all: repeat break_inner; reflexivity.
Qed.

Lemma second_click_requests_move_witness :
  onPointerDown None (MouseDown 0 (square 28) 200 200) pawnClicked =
  setMoveInputState None STATE.moveDone (Some (toSquare 28)) pawnClicked.
Proof.
  apply (second_click_requests_move None (MouseDown 0 (square 28) 200 200) pawnClicked 28);
    try reflexivity.
  vm_compute. discriminate.
Defined.

(** In [clickTo], a primary pointer-down on the start square
    enters [secondClickThreshold] and records the point; nothing else
    changes. *)
Lemma second_click_on_start_square cb e w :
  machineState w = STATE.clickTo ->
  primaryDown e = true ->
  Element.getDataIndex (targetOfDown e) = MoveInput.startIndex (moveInput w) ->
  onPointerDown cb e w =
    Ok tt (withMoveInput
             (fun m => SetInput.startPoint (Some (pointOfDown e))
                         (SetInput.moveInputState STATE.secondClickThreshold m)) w).
Proof.
  world w. cbn [machineState moveInput MoveInput.moveInputState MoveInput.startIndex].
  intros -> Hb Hi. destruct e as [b [ibg [j|]] cx cy | [ibg [j|]] cx cy].
  all: cbn [primaryDown targetOfDown Element.getDataIndex Element.dataIndex] in *.
  all: subst si.
  all: exec_lhs; evaluate; contradict_tests.
  all: try (rewrite Nat.eqb_refl in *; discriminate).
Qed.

(** ** The pointer-move handler *)

(** X10: in the two threshold states a pointer-move that stays
    within [DRAG_THRESHOLD] of the start point in both directions changes
    nothing. *)
Theorem pointer_move_within_threshold cb e w p :
  machineState w = STATE.pieceClickedThreshold
  \/ machineState w = STATE.secondClickThreshold ->
  MoveInput.startPoint (moveInput w) = Some p ->
  (Z.abs (x p - fst (pageOfMove e)) <= DRAG_THRESHOLD)%Z ->
  (Z.abs (y p - snd (pageOfMove e)) <= DRAG_THRESHOLD)%Z ->
  onPointerMove cb e w = Ok tt w.
Proof.
  world w. cbn [machineState moveInput MoveInput.moveInputState MoveInput.startPoint].
  intros Hs -> Hx Hy.
  assert (Hb : beyondThreshold p (fst (pageOfMove e)) (snd (pageOfMove e)) = false).
  { unfold beyondThreshold. apply orb_false_iff. split; apply Z.ltb_ge; assumption. }
  destruct e as [px py t | px py t]; cbn [pageOfMove fst snd] in Hb.
  all: destruct Hs as [-> | ->]; evaluate; rewrite Hb; reflexivity.
Qed.

Lemma pointer_move_within_threshold_witness :
  onPointerMove None (MouseMove 102 98 (Some (square 12)))
    (run None [pointerDownEvent (MouseDown 0 (square 12) 100 100)] (exampleBoard pawnOn12))
  = Ok tt (run None [pointerDownEvent (MouseDown 0 (square 12) 100 100)]
             (exampleBoard pawnOn12)).
Proof.
  apply (pointer_move_within_threshold None _ _ {| x := 100; y := 100 |}).
  - left. reflexivity.
  - reflexivity.
  - vm_compute. discriminate.
  - vm_compute. discriminate.
Defined.

(** X11: in the mode [dragPiece], a pointer-move beyond the
    threshold turns [pieceClickedThreshold] into [dragTo] and
    [secondClickThreshold] into [clickDragTo], hides the element of the
    piece on the start square and creates the draggable piece, named after
    the moved piece and placed at the pointer; nothing else changes. *)
Theorem pointer_move_beyond_threshold cb e w p s piece :
  machineState w = STATE.pieceClickedThreshold
  \/ machineState w = STATE.secondClickThreshold ->
  MoveInput.startPoint (moveInput w) = Some p ->
  beyondThreshold p (fst (pageOfMove e)) (snd (pageOfMove e)) = true ->
  Props.moveInputMode (props w) = dragPiece ->
  MoveInput.startIndex (moveInput w) = val s ->
  findPiece (val s) (View.piecesGroup (view w)) = Some piece ->
  MoveInput.draggablePiece (moveInput w) = None ->
  onPointerMove cb e w =
    Ok tt
      (withView
         (SetView.piecesGroup (setVisibility s false (View.piecesGroup (view w))))
         (withMoveInput
            (fun m =>
               SetInput.draggablePiece
                 (Some {| DraggablePiece.name := MoveInput.movedPiece m;
                          DraggablePiece.position :=
                            Some {| x := fst (pageOfMove e); y := snd (pageOfMove e) |} |})
                 (SetInput.moveInputState
                    (if STATE.eqb (MoveInput.moveInputState m) STATE.secondClickThreshold
                     then STATE.clickDragTo else STATE.dragTo) m))
            w)).
Proof.
  world w. cbn [machineState moveInput MoveInput.moveInputState MoveInput.startPoint
                props Props.moveInputMode MoveInput.startIndex view View.piecesGroup
                MoveInput.draggablePiece].
  intros Hs -> Hb -> -> Hp ->.
  destruct e as [px py t | px py t]; cbn [pageOfMove fst snd] in *.
  all: destruct Hs as [-> | ->]; evaluate; rewrite Hb; evaluate.
  all: unfold findPiece in *; rewrite Hp; reflexivity.
Qed.

Lemma pointer_move_beyond_threshold_witness :
  machineState
    (worldOf (onPointerMove None (MouseMove 110 110 (Some (square 12)))
                (run None [pointerDownEvent (MouseDown 0 (square 12) 100 100)]
                   (exampleBoard pawnOn12)))) = STATE.dragTo.
Proof.
  rewrite (pointer_move_beyond_threshold None (MouseMove 110 110 (Some (square 12)))
             (run None [pointerDownEvent (MouseDown 0 (square 12) 100 100)]
                (exampleBoard pawnOn12))
             {| x := 100; y := 100 |} 12 (drawPiece 12 "wp")).
  - reflexivity.
  - left. reflexivity.
  - reflexivity.
  - reflexivity.
  - reflexivity.
  - reflexivity.
  - reflexivity.
  - reflexivity.
Defined.

(** In a mode other than [dragPiece], a pointer-move beyond the
    threshold changes the state of the machine and nothing else. *)
Lemma pointer_move_beyond_threshold_without_drag_piece cb e w p :
  machineState w = STATE.pieceClickedThreshold
  \/ machineState w = STATE.secondClickThreshold ->
  MoveInput.startPoint (moveInput w) = Some p ->
  beyondThreshold p (fst (pageOfMove e)) (snd (pageOfMove e)) = true ->
  Props.moveInputMode (props w) <> dragPiece ->
  onPointerMove cb e w =
    Ok tt
      (withMoveInput
         (fun m =>
            SetInput.moveInputState
              (if STATE.eqb (MoveInput.moveInputState m) STATE.secondClickThreshold
               then STATE.clickDragTo else STATE.dragTo) m)
         w).
Proof.
  world w. cbn [machineState moveInput MoveInput.moveInputState MoveInput.startPoint
                props Props.moveInputMode].
  intros Hs -> Hb Hm.
  destruct e as [px py t | px py t]; cbn [pageOfMove fst snd] in *.
  all: destruct Hs as [-> | ->]; destruct mode; try congruence;
    evaluate; rewrite Hb; reflexivity.
Qed.

(** X12: in the mode [dragPiece], a pointer-move beyond the
    threshold while no piece element is drawn on the start square throws
    a TypeError in [setPieceVisibility]; the machine is then already in
    [dragTo] (or [clickDragTo]) and no draggable piece was made. *)
Theorem drag_of_erased_piece_throws cb e w p :
  machineState w = STATE.pieceClickedThreshold
  \/ machineState w = STATE.secondClickThreshold ->
  MoveInput.startPoint (moveInput w) = Some p ->
  beyondThreshold p (fst (pageOfMove e)) (snd (pageOfMove e)) = true ->
  Props.moveInputMode (props w) = dragPiece ->
  findPiece (MoveInput.startIndex (moveInput w)) (View.piecesGroup (view w)) = None ->
  onPointerMove cb e w =
    Throw TypeError
      (withMoveInput
         (fun m =>
            SetInput.moveInputState
              (if STATE.eqb (MoveInput.moveInputState m) STATE.secondClickThreshold
               then STATE.clickDragTo else STATE.dragTo) m)
         w).
Proof.
  world w. cbn [machineState moveInput MoveInput.moveInputState MoveInput.startPoint
                props Props.moveInputMode MoveInput.startIndex view View.piecesGroup].
  intros Hs -> Hb -> Hp.
  destruct e as [px py t | px py t]; cbn [pageOfMove fst snd] in *.
  all: destruct Hs as [-> | ->]; evaluate; rewrite Hb; evaluate.
  all: destruct si; unfold findPiece in *; try rewrite Hp; reflexivity.
Qed.

Lemma drag_of_erased_piece_throws_witness :
  thrown (onPointerMove None (MouseMove 110 110 (Some (square 12)))
            (run None pawnErased (exampleBoard pawnOn12))) = Some TypeError.
Proof.
  rewrite (drag_of_erased_piece_throws None (MouseMove 110 110 (Some (square 12)))
             (run None pawnErased (exampleBoard pawnOn12)) {| x := 100; y := 100 |}).
  - reflexivity.
  - left. reflexivity.
  - reflexivity.
  - reflexivity.
  - reflexivity.
  - reflexivity.
Defined.

Lemma other_markers_kept (mk extra : list Marker.t) :
  List.filter isMoveMarker extra = extra ->
  List.filter (fun m => negb (isMoveMarker m))
    (List.filter (fun m => negb (isMoveMarker m)) mk ++ extra) =
  List.filter (fun m => negb (isMoveMarker m)) mk.
Proof.
  intros H. rewrite List.filter_app.
  assert (E : List.filter (fun m => negb (isMoveMarker m)) extra = []).
  { rewrite <- H. clear H. induction extra as [|m l IH]; [reflexivity|].
    cbn [List.filter]. destruct (isMoveMarker m) eqn:Em; [|exact IH].
    cbn [List.filter]. rewrite Em. exact IH. }
  rewrite E, app_nil_r. clear.
  induction mk as [|m l IH]; [reflexivity|].
  cbn [List.filter]. destruct (isMoveMarker m) eqn:Em; cbn [negb]; [exact IH|].
  cbn [List.filter]. rewrite Em. cbn [negb]. f_equal. exact IH.
Qed.

(** X13: a pointer-move never changes the placement, the start
    square, the moved piece, the start point, the listeners, the calls
    made, the markers other than the move highlight or the animation
    queue; and the only changes of state it makes are from
    [pieceClickedThreshold] to [dragTo] and from [secondClickThreshold] to
    [clickDragTo]. *)
Theorem pointer_move_frame cb e w :
  let w' := worldOf (onPointerMove cb e w) in
  placement w' = placement w
  /\ MoveInput.startIndex (moveInput w') = MoveInput.startIndex (moveInput w)
  /\ MoveInput.movedPiece (moveInput w') = MoveInput.movedPiece (moveInput w)
  /\ MoveInput.startPoint (moveInput w') = MoveInput.startPoint (moveInput w)
  /\ windowListeners w' = windowListeners w
  /\ MoveInput.pointerMoveListener (moveInput w') = MoveInput.pointerMoveListener (moveInput w)
  /\ MoveInput.pointerUpListener (moveInput w') = MoveInput.pointerUpListener (moveInput w)
  /\ calls w' = calls w
  /\ otherMarkers w' = otherMarkers w
  /\ View.animationQueue (view w') = View.animationQueue (view w)
  /\ (machineState w' = machineState w
      \/ (machineState w = STATE.pieceClickedThreshold /\ machineState w' = STATE.dragTo)
      \/ (machineState w = STATE.secondClickThreshold
          /\ machineState w' = STATE.clickDragTo)).
Proof.
  world w. cbv zeta. unfold otherMarkers.
  destruct e as [px py t | px py t]; exec_goal; evaluate.
  all: rewrite <- ?app_assoc, ?other_markers_kept by (repeat break_inner; reflexivity).
  all: repeat split; auto.
Qed.

(** ** The pointer-up handler *)

(** X14: a piece dragged from [pieceClickedThreshold] and released
    on its start square is not moved: the machine enters [clickTo], the
    draggable piece is removed and the element of the piece is made
    visible again; no callback is called and the listeners stay. *)
Theorem drag_released_on_start_square cb e w target s piece :
  machineState w = STATE.dragTo ->
  targetOfUp e = Some target ->
  Element.getDataIndex target = val s ->
  MoveInput.startIndex (moveInput w) = val s ->
  findPiece (val s) (View.piecesGroup (view w)) = Some piece ->
  onPointerUp cb e w =
    Ok tt
      (withView
         (SetView.piecesGroup (setVisibility s true (View.piecesGroup (view w))))
         (withMoveInput
            (fun m => SetInput.draggablePiece None
                        (SetInput.moveInputState STATE.clickTo m)) w)).
Proof.
  world w. cbn [machineState moveInput MoveInput.moveInputState MoveInput.startIndex
                view View.piecesGroup].
  intros -> Ht Hi -> Hp.
  destruct e as [t | t]; cbn [targetOfUp] in Ht; subst t; destruct target as [ibg [i|]];
    cbn [Element.getDataIndex Element.dataIndex] in Hi; simplify_eq.
  all: exec_lhs; evaluate; unfold findPiece in *; contradict_tests.
  all: try (rewrite Nat.eqb_refl in *; discriminate).
Qed.

Lemma drag_released_on_start_square_witness :
  machineState
    (worldOf (onPointerUp None (MouseUp (Some (square 12)))
                (run None mouseDrag (exampleBoard pawnOn12)))) = STATE.clickTo.
Proof.
  rewrite (drag_released_on_start_square None (MouseUp (Some (square 12)))
             (run None mouseDrag (exampleBoard pawnOn12)) (square 12) 12
             {| PieceElement.dataIndex := 12; PieceElement.dataPiece := "wp";
                PieceElement.visible := false |});
    reflexivity.
Defined.

(** X15: a piece dragged after a second click and released on its
    start square ends the gesture without any callback: the piece is
    written back to the start square, its element is made visible and the
    machine is reset. *)
Theorem click_drag_released_on_start_square cb e w target s piece :
  machineState w = STATE.clickDragTo ->
  targetOfUp e = Some target ->
  Element.getDataIndex target = val s ->
  MoveInput.startIndex (moveInput w) = val s ->
  findPiece (val s) (View.piecesGroup (view w)) = Some piece ->
  onPointerUp cb e w =
    Ok tt
      (afterReset
         (withView
            (SetView.piecesGroup (setVisibility s true (View.piecesGroup (view w))))
            (withState
               (SetState.squares
                  (<[s := MoveInput.movedPiece (moveInput w)]> (placement w))) w))).
Proof.
  world w. cbn [machineState moveInput MoveInput.moveInputState MoveInput.startIndex
                view View.piecesGroup placement state State.squares].
  intros -> Ht Hi -> Hp.
  destruct e as [t | t]; cbn [targetOfUp] in Ht; subst t; destruct target as [ibg [i|]];
    cbn [Element.getDataIndex Element.dataIndex] in Hi; simplify_eq.
  all: exec_lhs; evaluate; unfold findPiece in *; contradict_tests.
  all: try (rewrite Nat.eqb_refl in *; discriminate).
Qed.

Lemma click_drag_released_on_start_square_witness :
  idle (worldOf (onPointerUp None (MouseUp (Some (square 12)))
                   (run None clickThenDrag (exampleBoard pawnOn12))))
  /\ calls (worldOf (onPointerUp None (MouseUp (Some (square 12)))
                       (run None clickThenDrag (exampleBoard pawnOn12)))) =
     [calledMoveStart (val 12) true].
Proof.
  rewrite (click_drag_released_on_start_square None (MouseUp (Some (square 12)))
             (run None clickThenDrag (exampleBoard pawnOn12)) (square 12) 12
             {| PieceElement.dataIndex := 12; PieceElement.dataPiece := "wp";
                PieceElement.visible := false |});
    try reflexivity.
  vm_compute. repeat split.
Defined.

(** X16: a pointer-up on a square in [secondClickThreshold] resets
    the machine and then calls [moveCanceledCallback] with the reason
    [secondClick] and that square. *)
Theorem second_click_cancels cb e w target i :
  machineState w = STATE.secondClickThreshold ->
  targetOfUp e = Some target ->
  Element.getDataIndex target = val i ->
  onPointerUp cb e w =
    Ok tt (withCalls (fun l => l ++ [calledMoveCanceled secondClick (val i)])
             (afterReset w)).
Proof.
  world w. cbn [machineState moveInput MoveInput.moveInputState].
  intros -> Ht Hi.
  destruct e as [t | t]; cbn [targetOfUp] in Ht; subst t; destruct target as [ibg [j|]];
    cbn [Element.getDataIndex Element.dataIndex] in Hi; simplify_eq.
  all: exec_lhs; evaluate; reflexivity.
Qed.

Lemma second_click_cancels_witness :
  calls (worldOf (onPointerUp None (TouchEnd (Some (square 12)))
                    (run None clickHoverTap (exampleBoard pawnOn12)))) =
  [calledMoveStart (val 12) true; calledMoveCanceled secondClick (val 12)].
Proof.
  rewrite (second_click_cancels None (TouchEnd (Some (square 12)))
             (run None clickHoverTap (exampleBoard pawnOn12)) (square 12) 12);
    reflexivity.
Defined.

(** A pointer-up on a square is ignored in [waitForInputStart],
    [clickTo] and [moveDone]. *)
Lemma pointer_up_on_square_ignored cb e w target i :
  machineState w = STATE.waitForInputStart \/ machineState w = STATE.clickTo
  \/ machineState w = STATE.moveDone ->
  targetOfUp e = Some target ->
  Element.getDataIndex target = val i ->
  onPointerUp cb e w = Ok tt w.
Proof.
  world w. cbn [machineState moveInput MoveInput.moveInputState].
  intros Hs Ht Hi.
  destruct e as [t | t]; cbn [targetOfUp] in Ht; subst t; destruct target as [ibg [j|]];
    cbn [Element.getDataIndex Element.dataIndex] in Hi; simplify_eq.
  all: destruct Hs as [-> | [-> | ->]]; evaluate; reflexivity.
Qed.

(** A pointer-up on any square in [pieceClickedThreshold]
    completes the click: the machine enters [clickTo] and nothing else
    changes. *)
Lemma click_ends_on_any_square cb e w target i :
  machineState w = STATE.pieceClickedThreshold ->
  targetOfUp e = Some target ->
  Element.getDataIndex target = val i ->
  onPointerUp cb e w =
    Ok tt (withMoveInput
             (fun m => SetInput.draggablePiece None
                         (SetInput.moveInputState STATE.clickTo m)) w).
Proof.
  world w. cbn [machineState moveInput MoveInput.moveInputState].
  intros -> Ht Hi.
  destruct e as [t | t]; cbn [targetOfUp] in Ht; subst t; destruct target as [ibg [j|]];
    cbn [Element.getDataIndex Element.dataIndex] in Hi; simplify_eq.
  all: exec_lhs; evaluate; reflexivity.
Qed.

(** ** A board that is only shown *)

Lemma view_only_dispatch cb ev w :
  viewOnlyBoard w -> viewOnlyBoard (worldOf (dispatch cb ev w)).
Proof.
  world w. unfold viewOnlyBoard. cbn [props Props.moveInputMode windowListeners].
  intros [-> ->]. destruct ev; exec_goal; evaluate; split; try reflexivity.
  all: repeat break_inner; reflexivity.
Qed.

(** X19: a board in the mode [viewOnly] ignores the pointer:
    whatever happened to it before, a pointer-down, pointer-move or
    pointer-up changes nothing. *)
Theorem view_only_board_ignores_pointer cb events duration white black squares ev :
  isPointerEvent ev = true ->
  dispatch cb ev (run cb events (board viewOnly duration white black squares)) =
  Ok tt (run cb events (board viewOnly duration white black squares)).
Proof.
  intros Hev.
  assert (H : viewOnlyBoard (run cb events (board viewOnly duration white black squares))).
  { apply (run_preserves viewOnlyBoard cb (view_only_dispatch cb)). split; reflexivity. }
  revert H. generalize (run cb events (board viewOnly duration white black squares)).
  intros w. world w. unfold viewOnlyBoard. cbn [props Props.moveInputMode windowListeners].
  intros [-> ->]. destruct ev; try discriminate Hev; evaluate; reflexivity.
Qed.

Lemma view_only_board_ignores_pointer_witness :
  dispatch None (pointerDownEvent (MouseDown 0 (square 12) 100 100))
    (run None [resetCall] (board viewOnly (300 # 1) true true pawnOn12)) =
  Ok tt (run None [resetCall] (board viewOnly (300 # 1) true true pawnOn12)).
Proof.
  apply (view_only_board_ignores_pointer None [resetCall]). reflexivity.
Defined.

(** ** Drawing and finding pieces *)

(** The group [querySelector] finds among those drawn for [indices]. *)
Lemma find_rendered (squares : list (js string)) i : forall indices,
  find (fun q => Nat.eqb (PieceElement.dataIndex q) i)
    (flat_map
       (fun j =>
          match squares !! j with
          | Some (val pieceName) =>
              if truthyName (val pieceName) then [drawPiece j pieceName] else []
          | _ => []
          end) indices) =
  if existsb (Nat.eqb i) indices
  then match squares !! i with
       | Some (val pieceName) =>
           if truthyName (val pieceName) then Some (drawPiece i pieceName) else None
       | _ => None
       end
  else None.
Proof.
  induction indices as [|j indices IH]; [reflexivity|].
  cbn [flat_map existsb]. destruct (Nat.eqb i j) eqn:E.
  - apply Nat.eqb_eq in E. subst j. cbn [orb].
    destruct (squares !! i) as [[| |pieceName]|]; cbn [app]; rewrite ?IH;
      try (destruct (existsb _ _); reflexivity).
    destruct (truthyName (val pieceName)); cbn [app]; rewrite ?IH;
      try (destruct (existsb _ _); reflexivity).
    cbn [find drawPiece PieceElement.dataIndex]. rewrite Nat.eqb_refl. reflexivity.
  - cbn [orb]. destruct (squares !! j) as [[| |pieceName]|]; cbn [app]; try exact IH.
    destruct (truthyName (val pieceName)); cbn [app]; try exact IH.
    cbn [find drawPiece PieceElement.dataIndex]. rewrite Nat.eqb_sym, E. exact IH.
Qed.

Lemma on_board (i : nat) : existsb (Nat.eqb i) (seq 0 64) = (i <? 64).
Proof.
  destruct (i <? 64) eqn:E.
  - apply Nat.ltb_lt in E. apply existsb_exists. exists i. split.
    + apply in_seq. lia.
    + apply Nat.eqb_refl.
  - apply Nat.ltb_ge in E. destruct (existsb _ _) eqn:Ex; [|reflexivity].
    apply existsb_exists in Ex as (j & Hj & Hij). apply Nat.eqb_eq in Hij. subst j.
    apply in_seq in Hj. lia.
Qed.

Lemma findPiece_rendered (squares : list (js string)) (i : nat) :
  findPiece (val i) (renderPieces squares) =
  match squares !! i with
  | Some (val pieceName) =>
      if (i <? 64) && truthyName (val pieceName) then Some (drawPiece i pieceName) else None
  | _ => None
  end.
Proof.
  unfold findPiece, renderPieces. rewrite find_rendered, on_board.
  destruct (i <? 64); [|destruct (squares !! i) as [[| |?]|]; reflexivity].
  reflexivity.
Qed.

(** X20: after [drawPieces(squares)], [getPiece(i)] returns the
    element drawn for [squares[i]], with that name, exactly when [i] is
    below 64 and [squares[i]] is a non-empty name; it returns nothing
    otherwise. *)
Theorem getPiece_after_drawPieces (squares : list (js string)) (w : World) (i : nat) :
  (drawPieces squares;; getPiece (val i)) w =
  Ok (match squares !! i with
      | Some (val pieceName) =>
          if (i <? 64) && truthyName (val pieceName)
          then Some (drawPiece i pieceName) else None
      | _ => None
      end)
     (worldOf (drawPieces squares w)).
Proof.
  world w.
  cbv beta iota zeta delta
    [drawPieces getPiece gets modify mbind M_bind bind mret M_ret ret worldOf
     withView SetView.piecesGroup view View.piecesGroup].
  rewrite findPiece_rendered. reflexivity.
Qed.

Lemma find_setVisibility_same i visible (g : list PieceElement.t) p :
  find (fun q => Nat.eqb (PieceElement.dataIndex q) i) g = Some p ->
  find (fun q => Nat.eqb (PieceElement.dataIndex q) i) (setVisibility i visible g) =
  Some {| PieceElement.dataIndex := PieceElement.dataIndex p;
          PieceElement.dataPiece := PieceElement.dataPiece p;
          PieceElement.visible := visible |}.
Proof.
  induction g as [|q g IH]; [discriminate|]. cbn [find setVisibility].
  destruct (Nat.eqb (PieceElement.dataIndex q) i) eqn:E.
  - intros [= <-]. cbn [find PieceElement.dataIndex]. rewrite E. reflexivity.
  - intros H. cbn [find]. rewrite E. apply IH, H.
Qed.

Lemma find_setVisibility_other i j visible (g : list PieceElement.t) :
  j <> i ->
  find (fun q => Nat.eqb (PieceElement.dataIndex q) j) (setVisibility i visible g) =
  find (fun q => Nat.eqb (PieceElement.dataIndex q) j) g.
Proof.
  intros Hne. induction g as [|q g IH]; [reflexivity|]. cbn [find setVisibility].
  destruct (Nat.eqb (PieceElement.dataIndex q) i) eqn:E.
  - apply Nat.eqb_eq in E. cbn [find PieceElement.dataIndex].
    destruct (Nat.eqb (PieceElement.dataIndex q) j) eqn:Ej; [|reflexivity].
    apply Nat.eqb_eq in Ej. congruence.
  - cbn [find]. rewrite IH. reflexivity.
Qed.

(** X21: [setPieceVisibility] on a square that has a piece element
    sets the visibility of that element; the elements of the other
    squares, the squares that are drawn, the placement and the move input
    are as before. *)
Theorem setPieceVisibility_sets_one_piece i visible w p :
  findPiece (val i) (View.piecesGroup (view w)) = Some p ->
  exists w',
    setPieceVisibility (val i) visible w = Ok tt w'
    /\ findPiece (val i) (View.piecesGroup (view w')) =
       Some {| PieceElement.dataIndex := i;
               PieceElement.dataPiece := PieceElement.dataPiece p;
               PieceElement.visible := visible |}
    /\ (forall j, j <> i ->
          findPiece (val j) (View.piecesGroup (view w')) =
          findPiece (val j) (View.piecesGroup (view w)))
    /\ drawnSquares w' = drawnSquares w
    /\ placement w' = placement w
    /\ moveInput w' = moveInput w.
Proof.
  world w. unfold drawnSquares. cbn [view View.piecesGroup]. intros Hp.
  eexists. split.
  - evaluate. rewrite Hp. reflexivity.
  - cbn [view View.piecesGroup placement state State.squares moveInput findPiece] in *.
    split; [|split; [|split; [|split; reflexivity]]].
    + rewrite (find_setVisibility_same i visible pg p Hp). f_equal. f_equal.
      apply List.find_some in Hp as [_ Hp]. apply Nat.eqb_eq in Hp. exact Hp.
    + intros j Hj. apply find_setVisibility_other, Hj.
    + apply setVisibility_squares.
Qed.

Lemma setPieceVisibility_sets_one_piece_witness :
  exists w',
    setPieceVisibility (val 12) false (exampleBoard pawnOn12) = Ok tt w'
    /\ findPiece (val 12) (View.piecesGroup (view w')) =
       Some {| PieceElement.dataIndex := 12; PieceElement.dataPiece := "wp";
               PieceElement.visible := false |}
    /\ (forall j, j <> 12 ->
          findPiece (val j) (View.piecesGroup (view w')) =
          findPiece (val j) (View.piecesGroup (view (exampleBoard pawnOn12))))
    /\ drawnSquares w' = drawnSquares (exampleBoard pawnOn12)
    /\ placement w' = placement (exampleBoard pawnOn12)
    /\ moveInput w' = moveInput (exampleBoard pawnOn12).
Proof.
  apply (setPieceVisibility_sets_one_piece 12 false (exampleBoard pawnOn12)
           (drawPiece 12 "wp")).
  reflexivity.
Defined.

(** [setPieceVisibility] on a square without piece element
    throws a TypeError and changes nothing. *)
Lemma setPieceVisibility_without_piece index visible w :
  findPiece index (View.piecesGroup (view w)) = None ->
  setPieceVisibility index visible w = Throw TypeError w.
Proof.
  world w. cbn [view View.piecesGroup]. intros Hp. evaluate. rewrite Hp. reflexivity.
Qed.

(** ** Whole moves *)

(** A test whose answer is among the hypotheses. *)
Ltac known H :=
  match goal with
  | K : ?lhs = ?rhs |- _ =>
      lazymatch lhs with
      | true => fail
      | false => fail
      | _ => idtac
      end;
      lazymatch rhs with
      | true => idtac
      | false => idtac
      | Some _ => idtac
      | None => idtac
      end;
      rewrite K in H
  end.

(** The next event of a run, on a world that is written out. *)
Ltac exec_step :=
  match goal with
  | |- context [worldOf (dispatch ?c ?ev ?W)] =>
      lazymatch W with
      | context [dispatch] => fail
      | _ => idtac
      end;
      let r := fresh "r" in
      let Hr := fresh "Hr" in
      remember (dispatch c ev W) as r eqn:Hr;
      exec_with ltac:(fun a H =>
                        first [ progress cbn [existsb app List.filter lookup list_lookup delete list_delete
                                               length PieceElement.dataPiece PieceElement.dataIndex
                                               PieceElement.visible] in H
                              | known H
                              | summarize a H ]) Hr;
      subst r; cbn [worldOf]
  end.

(** X22: on a board that takes input, a click on a movable piece on
    square [s] followed by a click on another square [e], both accepted by
    the application, moves the piece: once the animation has ended the
    machine is idle, square [s] is empty, square [e] holds the piece and
    the pieces drawn are those of the placement. *)
Theorem click_move_end_to_end cb mode duration white black squares s e name x y :
  mode <> viewOnly ->
  s < 64 ->
  s <> e ->
  squares !! s = Some (val name) ->
  inputEnabledFor (board mode duration white black squares) name = true ->
  answer cb (moveStartEvent (val s)) = true ->
  answer cb (moveDoneEvent (val s) (val e)) = true ->
  let w := run cb (clickMove s e x y) (board mode duration white black squares) in
  idle w
  /\ placement w = <[e := val name]> (<[s := null]> squares)
  /\ View.piecesGroup (view w) = renderPieces (placement w).
Proof.
  intros Hm Hs Hne Hsq Hc Ha1 Ha2. cbv zeta.
  unfold clickMove, board, inputEnabledFor, square in *. cbn [run].
  assert (Hf : findPiece (val s) (renderPieces squares) = Some (drawPiece s name)
               /\ truthyName (val name) = true).
  { rewrite findPiece_rendered, Hsq.
    apply Nat.ltb_lt in Hs. rewrite Hs. cbn [andb].
    destruct (truthyName (val name)) eqn:E; [split; reflexivity|].
    exfalso. evaluate_in Hc. evaluate_in E. rewrite E in Hc.
    destruct white, black; discriminate Hc. }
  destruct Hf as [Hf Hn]. unfold drawPiece in Hf.
  assert (He1 : Nat.eqb e s = false) by (apply Nat.eqb_neq; congruence).
  assert (He2 : Nat.eqb s e = false) by (apply Nat.eqb_neq; congruence).
  assert (He3 : Nat.eqb s s = true) by apply Nat.eqb_refl.
  evaluate_in Hc. evaluate_in Hn. evaluate_in Ha1. evaluate_in Ha2.
  destruct (String.eqb name "") eqn:En; [discriminate Hn|].
  assert (Hz : Z.eqb 0 0 = true) by reflexivity.
  destruct mode; [congruence| |].
  all: do 5 exec_step.
  all: evaluate; cbn [List.filter]; repeat split.
Qed.

Lemma click_move_end_to_end_witness :
  placement (run None (clickMove 12 28 100 100) (exampleBoard pawnOn12)) =
  <[28 := val "wp"%string]> (<[12 := null]> pawnOn12).
Proof.
  refine (proj1 (proj2 (click_move_end_to_end None dragPiece (300 # 1) true true pawnOn12
                          12 28 "wp" 100 100 _ _ _ _ _ _ _))).
  - discriminate.
  - lia.
  - lia.
  - reflexivity.
  - reflexivity.
  - reflexivity.
  - reflexivity.
Defined.

(** X23: on a board that takes input, a movable piece pressed on
    square [s], dragged beyond the threshold and released over another
    square [e] is moved at once when the application accepts: the machine
    is idle, square [s] is empty, square [e] holds the piece, the pieces
    drawn are those of the placement, and the application was asked once
    for the start and once for the move. *)
Theorem drag_move_end_to_end cb mode duration white black squares s e name x y x' y' :
  mode <> viewOnly ->
  s < 64 ->
  s <> e ->
  squares !! s = Some (val name) ->
  inputEnabledFor (board mode duration white black squares) name = true ->
  beyondThreshold {| x := x; y := y |} x' y' = true ->
  answer cb (moveStartEvent (val s)) = true ->
  answer cb (moveDoneEvent (val s) (val e)) = true ->
  let w := run cb (dragMove s e x y x' y') (board mode duration white black squares) in
  idle w
  /\ placement w = <[e := val name]> (<[s := null]> squares)
  /\ View.piecesGroup (view w) = renderPieces (placement w)
  /\ calls w = [calledMoveStart (val s) true; calledMoveDone (val s) (val e) true].
Proof.
  intros Hm Hs Hne Hsq Hc Hb Ha1 Ha2. cbv zeta.
  unfold dragMove, board, inputEnabledFor, square in *. cbn [run].
  assert (Hf : findPiece (val s) (renderPieces squares) = Some (drawPiece s name)
               /\ truthyName (val name) = true).
  { rewrite findPiece_rendered, Hsq.
    apply Nat.ltb_lt in Hs. rewrite Hs. cbn [andb].
    destruct (truthyName (val name)) eqn:E; [split; reflexivity|].
    exfalso. evaluate_in Hc. evaluate_in E. rewrite E in Hc.
    destruct white, black; discriminate Hc. }
  destruct Hf as [Hf Hn]. unfold drawPiece in Hf.
  assert (He1 : Nat.eqb e s = false) by (apply Nat.eqb_neq; congruence).
  assert (He2 : Nat.eqb s e = false) by (apply Nat.eqb_neq; congruence).
  assert (He3 : Nat.eqb s s = true) by apply Nat.eqb_refl.
  evaluate_in Hc. evaluate_in Hn. evaluate_in Ha1. evaluate_in Ha2.
  destruct (String.eqb name "") eqn:En; [discriminate Hn|].
  assert (Hz : Z.eqb 0 0 = true) by reflexivity.
  destruct mode; [congruence| |].
  all: do 3 exec_step.
  all: evaluate; cbn [List.filter]; repeat split.
Qed.

Lemma drag_move_end_to_end_witness :
  calls (run None (dragMove 12 28 100 100 110 110) (exampleBoard pawnOn12)) =
  [calledMoveStart (val 12) true; calledMoveDone (val 12) (val 28) true].
Proof.
  refine (proj2 (proj2 (proj2 (drag_move_end_to_end None dragPiece (300 # 1) true true
                                 pawnOn12 12 28 "wp" 100 100 110 110 _ _ _ _ _ _ _ _)))).
  - discriminate.
  - lia.
  - lia.
  - reflexivity.
  - reflexivity.
  - reflexivity.
  - reflexivity.
  - reflexivity.
Defined.

(** ** The squares and the coordinates of the board *)

Lemma each_square (P : nat -> Prop) :
  Forall P (seq 0 64) -> forall i, i < 64 -> P i.
Proof.
  intros H i Hi. apply (proj1 (List.Forall_forall P (seq 0 64)) H).
  apply in_seq. lia.
Qed.

Lemma turned_square (index : nat) :
  index < 64 ->
  columnOf COLOR.black (63 - Z.of_nat index) = columnOf COLOR.white (Z.of_nat index)
  /\ rowOf COLOR.black (63 - Z.of_nat index) = rowOf COLOR.white (Z.of_nat index)
  /\ squareColor (63 - Z.of_nat index) = squareColor (Z.of_nat index).
Proof.
  revert index. apply each_square. repeat constructor.
Qed.

(** X24: [drawBoard] colours the square of every index of the board
    black exactly when its file and its rank have the same parity. *)
Theorem squares_are_checkered (index : nat) :
  index < 64 ->
  squareColor (Z.of_nat index) =
  if Z.even (Z.of_nat index mod 8 + Z.of_nat index / 8) then "black"%string
  else "white"%string.
Proof.
  revert index. apply each_square. repeat constructor.
Qed.

Lemma squares_are_checkered_witness :
  squareColor 0 = "black"%string.
Proof.
  apply (squares_are_checkered 0). lia.
Defined.

(** X25: [squareIndexToPoint] from the black side gives square
    [63 - index] the point that square [index] has from the white side,
    whatever the metrics of the page. *)
Theorem orientation_turns_the_board (number : Type) (plus times : number -> number -> number)
  (integer : Z -> number) (m : Metrics number) (index : nat) :
  index < 64 ->
  squareIndexToPoint number plus times integer m COLOR.black (63 - Z.of_nat index) =
  squareIndexToPoint number plus times integer m COLOR.white (Z.of_nat index).
Proof.
  intros H. unfold squareIndexToPoint.
  destruct (turned_square index H) as (-> & -> & _). reflexivity.
Qed.

Lemma orientation_turns_the_board_witness :
  squareIndexToPoint Q Qplus Qmult inject_Z exampleMetrics COLOR.black 63 =
  squareIndexToPoint Q Qplus Qmult inject_Z exampleMetrics COLOR.white 0.
Proof.
  apply (orientation_turns_the_board Q Qplus Qmult inject_Z exampleMetrics 0). lia.
Defined.

(** X26: [drawBoard] draws the same 64 rectangles, with the same
    positions, sizes and colours, from both sides of the board; only the
    indices differ, which run from 0 to 63 from the white side and from 63
    down to 0 from the black side. *)
Theorem drawBoard_from_the_black_side (number : Type)
  (plus times : number -> number -> number) (integer : Z -> number) (m : Metrics number) :
  let squares := drawBoard number plus times integer m in
  let shown (r : SquareRect number) :=
    (rectPoint number r, rectWidth number r, rectHeight number r, rectClass number r) in
  map shown (squares COLOR.black) = map shown (squares COLOR.white)
  /\ map (rectIndex number) (squares COLOR.white) = map Z.of_nat (seq 0 64)
  /\ map (rectIndex number) (squares COLOR.black) = rev (map Z.of_nat (seq 0 64)).
Proof.
  cbv zeta. unfold drawBoard. rewrite !map_map. split; [|split].
  - apply map_ext_in. intros i Hi. apply in_seq in Hi.
    cbn [rectPoint rectWidth rectHeight rectClass boardIndex].
    assert (H : i < 64) by lia.
    unfold squareIndexToPoint.
    destruct (turned_square i H) as (-> & -> & ->). reflexivity.
  - reflexivity.
  - reflexivity.
Qed.

Lemma labelled_square (orientation : COLOR.t) (index : nat) :
  index < 64 ->
  fileLabel orientation (Z.to_nat (columnOf orientation (Z.of_nat index))) =
    String (Ascii.ascii_of_nat (97 + index mod 8)) EmptyString
  /\ rankLabel orientation (rowOf orientation (Z.of_nat index)) =
     (1 + Z.of_nat index / 8)%Z
  /\ (0 <= columnOf orientation (Z.of_nat index) < 8)%Z
  /\ (0 <= rowOf orientation (Z.of_nat index) < 8)%Z.
Proof.
  revert index. apply each_square.
  destruct orientation; repeat constructor; vm_compute; congruence.
Qed.

(** X27: from either side of the board, the label [drawCoordinates]
    writes under the column where [squareIndexToPoint] puts a square is
    the letter of the file of that square, and the label of its row is the
    rank of that square. *)
Theorem coordinates_name_the_squares (number : Type)
  (plus minus times divide : number -> number -> number)
  (integer : Z -> number) (decimal : Q -> number)
  (m : Metrics number) (showBorder : bool) (orientation : COLOR.t) (index : nat) :
  index < 64 ->
  let column := Z.to_nat (columnOf orientation (Z.of_nat index)) in
  let row := Z.to_nat (rowOf orientation (Z.of_nat index)) in
  column < 8 /\ row < 8
  /\ textContent number string
       (fileCoordinate number plus minus times integer decimal m showBorder orientation
          column) =
     String (Ascii.ascii_of_nat (97 + index mod 8)) EmptyString
  /\ textContent number Z
       (rankCoordinate number plus minus times divide integer decimal m showBorder
          orientation row) =
     (1 + Z.of_nat index / 8)%Z.
Proof.
  intros H. cbv zeta. cbn [textContent fileCoordinate rankCoordinate].
  destruct (labelled_square orientation index H) as (Hf & Hr & Hc & Hw).
  split; [lia|]. split; [lia|]. split; [exact Hf|].
  rewrite Z2Nat.id by lia. exact Hr.
Qed.

Lemma coordinates_name_the_squares_witness :
  textContent Q string
    (fileCoordinate Q Qplus Qminus Qmult inject_Z (fun q => q) exampleMetrics false
       COLOR.black 3) = "e"%string.
Proof.
  refine (proj1 (proj2 (proj2 (coordinates_name_the_squares Q Qplus Qminus Qmult Qdiv
                                 inject_Z (fun q => q) exampleMetrics false COLOR.black
                                 12 _)))).
  lia.
Defined.

(** X28: the offsets that [drawCoordinates] applies only under
    [showBorder] within its [inline] branch are never applied, since
    [inline] is the negation of [showBorder]: the labels of the columns
    are always at [height - scalingY * 3.2], and those of the rows are
    moved right by [scalingX * 2] without border and not at all with
    it. *)
Theorem coordinates_offsets_never_applied (number : Type)
  (plus minus times divide : number -> number -> number)
  (integer : Z -> number) (decimal : Q -> number)
  (m : Metrics number) (showBorder : bool) (orientation : COLOR.t) (i : nat) :
  textY number string
    (fileCoordinate number plus minus times integer decimal m showBorder orientation i) =
    minus (height number m) (times (scalingY number m) (decimal (32 # 10)))
  /\ textX number Z
       (rankCoordinate number plus minus times divide integer decimal m showBorder
          orientation i) =
     if showBorder
     then divide (borderSize number m) (decimal (37 # 10))
     else plus (divide (borderSize number m) (decimal (37 # 10)))
            (times (scalingX number m) (integer 2%Z)).
Proof.
  destruct showBorder; split; reflexivity.
Qed.

(** ** A burst of animations *)

Lemma startedDurations_app (a b : list Call) :
  startedDurations (a ++ b) = startedDurations a ++ startedDurations b.
Proof. apply flat_map_app. Qed.

Lemma run_app cb (a b : list Event) : forall w, run cb (a ++ b) w = run cb b (run cb a w).
Proof.
  induction a as [|ev a IH]; intros w; [reflexivity|]. cbn [app run]. apply IH.
Qed.

(** While an animation plays, [animatePieces] only lengthens the queue. *)
Lemma enqueued_while_playing cb steps : forall w,
  View.animationRunning (view w) = true ->
  run cb (animateCalls steps) w =
  withView (fun v => SetView.animationQueue (View.animationQueue v ++ map entryOf steps) v) w.
Proof.
  induction steps as [|step steps IH]; intros w Hr.
  - world w. cbn [animateCalls map run]. evaluate. rewrite app_nil_r. reflexivity.
  - cbn [animateCalls map run]. fold (animateCalls steps).
    rewrite IH.
    + world w. cbn [view View.animationRunning] in Hr. subst ar.
      evaluate. rewrite <- app_assoc. reflexivity.
    + world w. cbn [view View.animationRunning] in Hr. subst ar. evaluate. reflexivity.
Qed.

(** The end of the animation that plays, when its callback is none of the
    machine's: the head of the queue, if any, is started. *)
Lemma one_completion cb w a :
  View.animationRunning (view w) = true ->
  View.playing (view w) = [a] ->
  Animation.callback (PiecesAnimation.entry a) = noCallback ->
  let w' := worldOf (dispatch cb (animationEnd 0) w) in
  moveInput w' = moveInput w
  /\ placement w' = placement w
  /\ props w' = props w
  /\ (MoveInput.draggablePiece (moveInput w) = None ->
      View.piecesGroup (view w') =
        renderPieces (Animation.toSquares (PiecesAnimation.entry a)))
  /\ match View.animationQueue (view w) with
     | [] => quiet w' /\ calls w' = calls w
     | next :: rest =>
         View.animationRunning (view w') = true
         /\ View.animationQueue (view w') = rest
         /\ exists a',
              View.playing (view w') = [a']
              /\ PiecesAnimation.entry a' = next
              /\ PiecesAnimation.duration a' =
                 durationFor (Props.animationDuration (props w)) (length rest)
              /\ calls w' = calls w ++ [startedAnimation a']
     end.
Proof.
  world w. destruct a as [f t d [ef et ec]].
  cbn [view View.animationRunning View.playing PiecesAnimation.entry Animation.callback].
  intros -> -> ->. cbv zeta. unfold quiet.
  exec_goal; evaluate; list_ops; simplify_eq/=.
  all: repeat split; try congruence; try (intros; congruence).
  all: eexists; repeat split.
Qed.

Lemma countdown (m : nat) : rev (seq 0 (S m)) = m :: rev (seq 0 m).
Proof. rewrite seq_S, rev_app_distr. reflexivity. Qed.

Lemma last_of_cons {A : Type} (l : list A) : forall x d,
  List.last (x :: l) d = List.last l x.
Proof.
  induction l as [|y l IH]; intros x d; [reflexivity|].
  change (List.last (x :: y :: l) d) with (List.last (y :: l) d).
  rewrite !IH. reflexivity.
Qed.

(** The animation that plays and those that wait end one after the other. *)
Lemma queue_drains cb q : forall w a,
  View.animationRunning (view w) = true ->
  View.playing (view w) = [a] ->
  View.animationQueue (view w) = q ->
  Animation.callback (PiecesAnimation.entry a) = noCallback ->
  Forall (fun next => Animation.callback next = noCallback) q ->
  let w' := run cb (replicate (S (length q)) (animationEnd 0)) w in
  quiet w'
  /\ startedEntries (calls w') = startedEntries (calls w) ++ q
  /\ startedDurations (calls w') =
     startedDurations (calls w)
     ++ map (durationFor (Props.animationDuration (props w))) (rev (seq 0 (length q)))
  /\ (MoveInput.draggablePiece (moveInput w) = None ->
      View.piecesGroup (view w') =
        renderPieces (Animation.toSquares (List.last q (PiecesAnimation.entry a))))
  /\ moveInput w' = moveInput w
  /\ placement w' = placement w.
Proof.
  induction q as [|next rest IH]; intros w a Hr Hp Hq Hc Hall; cbv zeta.
  - cbn [length replicate run].
    destruct (one_completion cb w a Hr Hp Hc) as (Hm & Hpl & _ & Hd & Hn).
    rewrite Hq in Hn. destruct Hn as [Hn Hcalls].
    rewrite Hcalls, !app_nil_r. repeat split; try assumption; apply Hn.
  - cbn [length]. change (replicate (S (S (length rest))) (animationEnd 0))
      with (animationEnd 0 :: replicate (S (length rest)) (animationEnd 0)).
    cbn [run].
    destruct (one_completion cb w a Hr Hp Hc) as (Hm & Hpl & Hprops & _ & Hn).
    rewrite Hq in Hn. destruct Hn as (Hr' & Hq' & a' & Hp' & He & Hdur & Hcalls).
    apply List.Forall_cons_iff in Hall as [Hnext Hall].
    assert (Hc' : Animation.callback (PiecesAnimation.entry a') = noCallback)
      by (rewrite He; exact Hnext).
    destruct (IH _ a' Hr' Hp' Hq' Hc' Hall) as (H1 & H2 & H3 & H4 & H5 & H6).
    split; [exact H1|]. split; [|split; [|split; [|split]]].
    + rewrite H2, Hcalls, startedEntries_app. cbn [startedEntries flat_map app].
      rewrite He, <- app_assoc. reflexivity.
    + rewrite H3, Hcalls, startedDurations_app, Hprops, countdown.
      cbn [startedDurations flat_map app map]. rewrite Hdur, <- app_assoc. reflexivity.
    + intros Hd. rewrite H4 by (rewrite Hm; exact Hd). rewrite He, last_of_cons.
      reflexivity.
    + rewrite H5. exact Hm.
    + rewrite H6. exact Hpl.
Qed.

(** X29: when the application asks for several animations in one go
    on a board where nothing is animated, and the animations then end one
    after the other, they are started in the order of the calls, the first
    with the full duration and each later one with the duration divided by
    the number of animations still to be shown; in the end nothing plays,
    nothing waits and, unless a piece is being dragged, the pieces drawn
    are those of the last target.  The placement is never written. *)
Theorem animation_burst cb w step steps :
  quiet w ->
  let w' := run cb (burst (step :: steps)) w in
  let base := Props.animationDuration (props w) in
  quiet w'
  /\ startedEntries (calls w') = startedEntries (calls w) ++ map entryOf (step :: steps)
  /\ startedDurations (calls w') =
     startedDurations (calls w)
     ++ durationFor base 0 :: map (durationFor base) (rev (seq 0 (length steps)))
  /\ (MoveInput.draggablePiece (moveInput w) = None ->
      View.piecesGroup (view w') = renderPieces (snd (List.last steps step)))
  /\ placement w' = placement w.
Proof.
  intros (Hr & Hp & Hq). cbv zeta. unfold burst.
  rewrite run_app. cbn [animateCalls map run]. fold (animateCalls steps).
  set (w1 := worldOf (dispatch cb (animatePiecesCall (fst step) (snd step) None) w)).
  assert (H1 : View.animationRunning (view w1) = true
               /\ View.animationQueue (view w1) = []
               /\ moveInput w1 = moveInput w /\ placement w1 = placement w
               /\ props w1 = props w
               /\ exists a,
                    View.playing (view w1) = [a]
                    /\ PiecesAnimation.entry a = entryOf step
                    /\ PiecesAnimation.duration a =
                       durationFor (Props.animationDuration (props w)) 0
                    /\ calls w1 = calls w ++ [startedAnimation a]).
  { subst w1. world w. cbn [view View.animationRunning View.playing View.animationQueue]
      in Hr, Hp, Hq. subst ar pl aq.
    exec_step. evaluate. unfold entryOf. repeat split. eexists. repeat split. }
  destruct H1 as (Hr1 & Hq1 & Hm1 & Hpl1 & Hprops1 & a & Hp1 & He1 & Hd1 & Hc1).
  rewrite (enqueued_while_playing cb steps w1 Hr1).
  set (w2 := withView _ w1).
  assert (Hq2 : View.animationQueue (view w2) = map entryOf steps).
  { subst w2. destruct w1 as [? ? [] ? ? ?]. cbn in Hq1 |- *. rewrite Hq1. reflexivity.
}
  assert (Hs2 : View.animationRunning (view w2) = true /\ View.playing (view w2) = [a]
                /\ calls w2 = calls w1 /\ moveInput w2 = moveInput w1
                /\ placement w2 = placement w1 /\ props w2 = props w1).
  { subst w2. destruct w1 as [? ? [] ? ? ?]. cbn in Hr1, Hp1 |- *.
    repeat split; assumption. }
  destruct Hs2 as (Hr2 & Hp2 & Hc2 & Hm2 & Hpl2 & Hprops2).
  assert (Hca : Animation.callback (PiecesAnimation.entry a) = noCallback)
    by (rewrite He1; reflexivity).
  assert (Hall : Forall (fun next => Animation.callback next = noCallback)
                   (map entryOf steps)).
  { apply List.Forall_forall. intros n Hn. apply in_map_iff in Hn as (s & <- & _).
    reflexivity. }
  pose proof (queue_drains cb (map entryOf steps) w2 a Hr2 Hp2 Hq2 Hca Hall) as H.
  cbv zeta in H. rewrite length_map in H.
  cbn [length].
  destruct H as (G1 & G2 & G3 & G4 & G5 & G6).
  split; [exact G1|]. split; [|split; [|split]].
  - rewrite G2, Hc2, Hc1, startedEntries_app. cbn [startedEntries flat_map app map].
    rewrite He1, <- app_assoc. reflexivity.
  - rewrite G3, Hc2, Hc1, startedDurations_app, Hprops2, Hprops1.
    cbn [startedDurations flat_map app]. rewrite Hd1, <- app_assoc. reflexivity.
  - intros Hd. rewrite G4 by (rewrite Hm2, Hm1; exact Hd). rewrite He1.
    clear. revert step. induction steps as [|s steps IH]; intros step; [reflexivity|].
    cbn [map]. rewrite !last_of_cons. apply (IH s).
  - rewrite G6, Hpl2, Hpl1. reflexivity.
Qed.

Lemma animation_burst_witness :
  startedDurations
    (calls (run None (burst [(pawnOn12, twoPawns); (twoPawns, blackPawnMoved);
                             (blackPawnMoved, pawnOn12)])
              (exampleBoard pawnOn12))) =
  [durationFor (300 # 1) 0; durationFor (300 # 1) 1; durationFor (300 # 1) 0].
Proof.
  refine (proj1 (proj2 (proj2 (animation_burst None (exampleBoard pawnOn12)
                                 (pawnOn12, twoPawns)
                                 [(twoPawns, blackPawnMoved); (blackPawnMoved, pawnOn12)]
                                 _)))).
  repeat split.
Defined.

(** ** Resetting the move input from outside *)

(** X30: [reset()], which is also what [destroy()] does, returns
    without redrawing the pieces, without scheduling a redraw, without
    touching the animation queue and without calling the application. *)
Theorem reset_leaves_pieces_as_drawn w :
  let w' := worldOf (reset w) in
  returned (reset w) = true
  /\ View.piecesGroup (view w') = View.piecesGroup (view w)
  /\ View.drawPiecesDebounce (view w') = View.drawPiecesDebounce (view w)
  /\ View.animationQueue (view w') = View.animationQueue (view w)
  /\ calls w' = calls w.
Proof.
  cbv zeta. unfold reset. rewrite enterReset_eq. repeat split.
Qed.

(** The pawn is dragged with the mouse and the application resets the move
    input: the machine is idle and the pawn is on its square, but its
    element stays hidden and no redraw is scheduled. *)
Example pawn_hidden_after_reset :
  let w := run None (mouseDrag ++ [resetCall]) (exampleBoard pawnOn12) in
  machineState w = STATE.waitForInputStart
  /\ placement w !! 12 = Some (val "wp"%string)
  /\ option_map PieceElement.visible (findPiece (val 12) (View.piecesGroup (view w))) =
     Some false
  /\ View.drawPiecesDebounce (view w) = false.
Proof. vm_compute. repeat split. Qed.
